(** * EV charging pipeline: extract, transform, load

    A shallow embedding of [etl_pipeline.py] and [database.py].

    - A pandas [DataFrame] is a list of column labels together with its
      rows; reading a label that is not a column raises [KeyError].
    - The geocoding cache (a Python [dict]) and the [stations] table
      (keyed by its INTEGER PRIMARY KEY) are finite maps.
    - Exceptions are values of [Error]; stateful code threads its state
      explicitly and returns it next to the result, also when it raises.
    - Coordinates are binary64 floats, formatted as Python's
      [format(x, ".3f")] does. *)

From Stdlib Require Import ZArith List Bool Ascii String DecimalString.
From Stdlib Require Import Floats.PrimFloat Floats.FloatOps Floats.SpecFloat.
From stdpp Require Import gmap strings list fin_maps sorting.
Import ListNotations.

Open Scope string_scope.
Open Scope Z_scope.

(** ** Exceptions *)

Inductive Error : Type :=
| KeyError (key : string)
| AttributeError
| TypeError
| JSONDecodeError
| RequestFailed (status_code : Z)
| GeocoderError
| OperationalError (msg : string)
| IntegrityError (key : Z).

Inductive Result (A : Type) : Type :=
| Ok (a : A)
| Raise (e : Error).

Arguments Ok {A} a.
Arguments Raise {A} e.

Definition is_ok {A} (r : Result A) : bool :=
  match r with Ok _ => true | Raise _ => false end.

(** ** Strings *)

(** [str.lower()] on the ASCII range. *)
Definition lower_ascii (c : ascii) : ascii :=
  let n := nat_of_ascii c in
  if ((65 <=? n) && (n <=? 90))%nat then ascii_of_nat (n + 32) else c.

Fixpoint lower (s : string) : string :=
  match s with
  | EmptyString => EmptyString
  | String c s' => String (lower_ascii c) (lower s')
  end.

(** [pat in s], which is what [str.contains(pat)] tests for a pattern
    made of letters only. *)
Fixpoint str_contains (pat s : string) : bool :=
  if String.prefix pat s then true
  else match s with
       | EmptyString => false
       | String _ s' => str_contains pat s'
       end.

(** ** Fixed-point formatting of floats: [f"{x:.3f}"] *)

(** [num / den] rounded to the nearest integer, ties to even;
    [0 <= num], [0 < den]. *)
Definition round_half_even (num den : Z) : Z :=
  let q := num / den in
  let r := num mod den in
  match (2 * r ?= den) with
  | Lt => q
  | Gt => q + 1
  | Eq => if Z.even q then q else q + 1
  end.

(** [m * 2^e * 1000], correctly rounded. *)
Definition thousandths (m : positive) (e : Z) : Z :=
  if 0 <=? e then 1000 * Z.pos m * 2 ^ e
  else round_half_even (1000 * Z.pos m) (2 ^ (- e)).

Definition digits (n : Z) : string :=
  NilZero.string_of_uint (N.to_uint (Z.to_N n)).

Definition fixed3 (t : Z) : string :=
  (digits (t / 1000) ++ "." ++ digits (t / 100 mod 10)
     ++ digits (t / 10 mod 10) ++ digits (t mod 10))%string.

Definition sign_prefix (negative : bool) : string :=
  if negative then "-" else "".

Definition fmt3f (x : float) : string :=
  match Prim2SF x with
  | S754_nan => "nan"
  | S754_infinity s => (sign_prefix s ++ "inf")%string
  | S754_zero s => (sign_prefix s ++ "0.000")%string
  | S754_finite s m e => (sign_prefix s ++ fixed3 (thousandths m e))%string
  end.

(** ** Station rows and data frames *)

(** The [last_updated] column holds the text of the listing until
    [pd.to_datetime] replaces it by a timestamp (nanoseconds) or [NaT]. *)
Inductive DateCell : Type :=
| DateText (s : string)
| Timestamp (ns : Z)
| NaT.

(** One row. The first seven fields are the keys of [station_info]; the
    last four are the columns [transform_stations] adds. A text cell is
    [None] when it holds no string (NaN). *)
Record Row : Type := mkRow {
  id : Z;
  name : string;
  latitude : float;
  longitude : float;
  address : string;
  operator : option string;
  last_updated : DateCell;
  operator_clean : option string;
  city : string;
  days_since_update : option Z;
  is_offline : bool
}.

Definition set_operator_clean (v : option string) (r : Row) : Row :=
  mkRow (id r) (name r) (latitude r) (longitude r) (address r) (operator r)
        (last_updated r) v (city r) (days_since_update r) (is_offline r).

Definition set_city (v : string) (r : Row) : Row :=
  mkRow (id r) (name r) (latitude r) (longitude r) (address r) (operator r)
        (last_updated r) (operator_clean r) v (days_since_update r)
        (is_offline r).

Definition set_last_updated (v : DateCell) (r : Row) : Row :=
  mkRow (id r) (name r) (latitude r) (longitude r) (address r) (operator r)
        v (operator_clean r) (city r) (days_since_update r) (is_offline r).

Definition set_days_since_update (v : option Z) (r : Row) : Row :=
  mkRow (id r) (name r) (latitude r) (longitude r) (address r) (operator r)
        (last_updated r) (operator_clean r) (city r) v (is_offline r).

Definition set_is_offline (v : bool) (r : Row) : Row :=
  mkRow (id r) (name r) (latitude r) (longitude r) (address r) (operator r)
        (last_updated r) (operator_clean r) (city r) (days_since_update r) v.

Record DataFrame : Type := mkDataFrame {
  columns : list string;
  rows : list Row
}.

Definition has_column (c : string) (df : DataFrame) : bool :=
  existsb (String.eqb c) (columns df).

(** [df[c] = ...]: a new label is appended, an old one keeps its place. *)
Definition with_column (c : string) (cols : list string) : list string :=
  if existsb (String.eqb c) cols then cols else (cols ++ [c])%list.

Definition station_info_keys : list string :=
  ["id"; "name"; "latitude"; "longitude"; "address"; "operator";
   "last_updated"].

(** [pd.DataFrame(all_stations)]: the labels are the keys of the
    dictionaries, so a frame built from no dictionary has no column. *)
Definition pd_DataFrame (all_stations : list Row) : DataFrame :=
  match all_stations with
  | [] => mkDataFrame [] []
  | _ :: _ => mkDataFrame station_info_keys all_stations
  end.

(** ** Transform, step 1: [df.drop_duplicates(subset=["id"])] *)

Fixpoint drop_duplicates_from (seen : list Z) (rs : list Row) : list Row :=
  match rs with
  | [] => []
  | r :: rs' =>
      if existsb (Z.eqb (id r)) seen then drop_duplicates_from seen rs'
      else r :: drop_duplicates_from (id r :: seen) rs'
  end.

(** An empty frame is returned as it is; otherwise the label is looked
    up and the first row of every identifier is kept. *)
Definition drop_duplicates (df : DataFrame) : Result DataFrame :=
  match rows df with
  | [] => Ok df
  | _ :: _ =>
      if has_column "id" df
      then Ok (mkDataFrame (columns df) (drop_duplicates_from [] (rows df)))
      else Raise (KeyError "id")
  end.

(** ** Transform, step 2: operator names *)

(** [df["operator_clean"].str.contains(pat, na=False)] on one row. *)
Definition contains_na_false (pat : string) (r : Row) : bool :=
  match operator_clean r with
  | Some s => str_contains pat s
  | None => false
  end.

(** [df["operator_clean"].isin(values)] on one row. *)
Definition isin (values : list string) (r : Row) : bool :=
  match operator_clean r with
  | Some s => existsb (String.eqb s) values
  | None => false
  end.

(** [df.loc[mask, "operator_clean"] = v] *)
Definition loc_assign (mask : Row -> bool) (v : string) (rs : list Row)
  : list Row :=
  map (fun r => if mask r then set_operator_clean (Some v) r else r) rs.

Definition str_lower_operator (rs : list Row) : list Row :=
  map (fun r => set_operator_clean (option_map lower (operator r)) r) rs.

Definition standardize_operators (rs : list Row) : list Row :=
  let rs := str_lower_operator rs in
  let rs := loc_assign (contains_na_false "tesla") "Tesla" rs in
  let rs := loc_assign (contains_na_false "bp") "BP" rs in
  let rs := loc_assign (contains_na_false "shell") "Shell" rs in
  loc_assign (fun r => negb (isin ["tesla"; "bp"; "shell"] r)) "Other" rs.

(** ** A state monad with exceptions *)

(** A computation over a state [S]: it returns a value or raises, and in
    both cases leaves a state behind. *)
Definition M (S A : Type) : Type := S -> Result A * S.

Definition ret {S A} (a : A) : M S A := fun s => (Ok a, s).

Definition raise {S A} (e : Error) : M S A := fun s => (Raise e, s).

Definition bind {S A B} (m : M S A) (k : A -> M S B) : M S B :=
  fun s =>
    match m s with
    | (Ok a, s') => k a s'
    | (Raise e, s') => (Raise e, s')
    end.

(** [try: body except Exception: handler]; what the body did to the
    state before it raised stays done. *)
Definition try_except {S A} (body : M S A) (handler : Error -> M S A)
  : M S A :=
  fun s =>
    match body s with
    | (Ok a, s') => (Ok a, s')
    | (Raise e, s') => handler e s'
    end.

Definition gets {S A} (f : S -> A) : M S A := fun s => (Ok (f s), s).

Definition modify {S} (f : S -> S) : M S unit := fun s => (Ok tt, f s).

Definition lift {S A} (r : Result A) : M S A := fun s => (r, s).

Notation "x <- m ;; k" := (bind m (fun x => k))
  (at level 100, m at next level, right associativity).
Notation "m ;;; k" := (bind m (fun _ => k))
  (at level 100, right associativity).

(** [df[c]] and [row[c]] for reading. *)
Definition column {S} (c : string) (cols : list string) : M S unit :=
  if existsb (String.eqb c) cols then ret tt else raise (KeyError c).

(** ** The geocoding cache and its file *)

(** What [geocoding_cache.json] holds: a JSON object of city names, or
    text that [json.load] rejects. *)
Inductive CacheFile : Type :=
| Unparseable
| JsonObject (entries : gmap string string).

(** The [address] dictionary of a geocoder answer. *)
Record Address : Type := mkAddress {
  address_city : option string;
  address_town : option string
}.

(** What [geolocator.reverse] does: it raises (timeout, service error),
    returns [None], or returns a location whose [raw] dictionary may
    have an ["address"] entry. *)
Inductive Reverse : Type :=
| ReverseRaises
| NoLocation
| Location (raw_address : option Address).

(** A lookup fails when it yields no address dictionary. *)
Definition reverse_fails (r : Reverse) : bool :=
  match r with
  | Location (Some _) => false
  | _ => true
  end.

(** What a transform pass shares with its surroundings: the cache file
    on disk ([None] when it does not exist) and the coordinates of the
    lookups sent to the geocoder so far. *)
Record World : Type := mkWorld {
  cache_file : option CacheFile;
  lookups : list (float * float)
}.

(** State of the closure [get_city_cached]: the dictionary
    [geocode_cache] of the running pass, and the world. *)
Record Geo : Type := mkGeo {
  geocode_cache : gmap string string;
  world : World
}.

Definition cache_store (key city : string) (g : Geo) : Geo :=
  mkGeo (<[key := city]> (geocode_cache g)) (world g).

(** [with open(cache_file, 'w') as f: json.dump(geocode_cache, f)];
    the write is taken to succeed. *)
Definition json_dump (g : Geo) : Geo :=
  mkGeo (geocode_cache g)
        (mkWorld (Some (JsonObject (geocode_cache g))) (lookups (world g))).

Definition log_lookup (lat lon : float) (g : Geo) : Geo :=
  mkGeo (geocode_cache g)
        (mkWorld (cache_file (world g))
                 (lookups (world g) ++ [(lat, lon)])%list).

(** [f"{lat:.3f},{lon:.3f}"] *)
Definition cache_key (lat lon : float) : string :=
  (fmt3f lat ++ "," ++ fmt3f lon)%string.

(** [address.get("city", address.get("town", "Unknown"))] *)
Definition address_get_city (a : Address) : string :=
  match address_city a with
  | Some c => c
  | None => match address_town a with
            | Some t => t
            | None => "Unknown"
            end
  end.

(** The city a lookup resolves to. *)
Definition resolved_city (r : Reverse) : string :=
  match r with
  | Location (Some a) => address_get_city a
  | _ => "Unknown"
  end.

Section Geocoding.

(** The geocoding service: its answer to a lookup may depend on how
    many lookups were sent before. *)
Variable geolocator_reverse : nat -> float -> float -> Reverse.

(** [geolocator.reverse(...)] followed by [location.raw["address"]]. *)
Definition reverse_address (lat lon : float) : M Geo Address :=
  n <- gets (fun g => length (lookups (world g))) ;;
  modify (log_lookup lat lon) ;;;
  match geolocator_reverse n lat lon with
  | ReverseRaises => raise GeocoderError
  | NoLocation => raise AttributeError
  | Location None => raise (KeyError "address")
  | Location (Some a) => ret a
  end.

Definition get_city_cached (lat lon : float) : M Geo string :=
  let key := cache_key lat lon in
  cache <- gets geocode_cache ;;
  match cache !! key with
  | Some v => ret v
  | None =>
      try_except
        (address <- reverse_address lat lon ;;
         let city := address_get_city address in
         modify (cache_store key city) ;;;
         n <- gets (fun g => size (geocode_cache g)) ;;
         (if (n mod 50 =? 0)%nat then modify json_dump else ret tt) ;;;
         ret city)
        (fun _ =>
           modify (cache_store key "Unknown") ;;;
           ret "Unknown")
  end.

(** [df.apply(lambda row: get_city_cached(row["latitude"],
    row["longitude"]), axis=1)], row after row, assigned to
    [df["city"]]; [row[c]] raises when [c] is no column. *)
Fixpoint apply_get_city (cols : list string) (rs : list Row)
  : M Geo (list Row) :=
  match rs with
  | [] => ret []
  | r :: rs' =>
      column "latitude" cols ;;;
      column "longitude" cols ;;;
      c <- get_city_cached (latitude r) (longitude r) ;;
      rs'' <- apply_get_city cols rs' ;;
      ret (set_city c r :: rs'')
  end.

End Geocoding.

(** ** Transform *)

(** Lines 152-158: the cache file is read when it exists; text that is
    not JSON makes [json.load] raise. *)
Definition load_cache : M World (gmap string string) :=
  fun w =>
    match cache_file w with
    | Some (JsonObject entries) => (Ok entries, w)
    | Some Unparseable => (Raise JSONDecodeError, w)
    | None => (Ok ∅, w)
    end.

(** The dictionary a pass starts from when the load succeeds. *)
Definition loaded_cache (w : World) : gmap string string :=
  match cache_file w with
  | Some (JsonObject entries) => entries
  | _ => ∅
  end.

(** Runs the closure on a fresh [geocode_cache] and hands back the
    dictionary it ends with. *)
Definition with_geocode_cache {A} (cache : gmap string string) (m : M Geo A)
  : M World (A * gmap string string) :=
  fun w =>
    match m (mkGeo cache w) with
    | (Ok a, g) => (Ok (a, geocode_cache g), world g)
    | (Raise e, g) => (Raise e, world g)
    end.

(** The final [json.dump] of lines 206-207. *)
Definition save_cache (cache : gmap string string) : M World unit :=
  modify (fun w => world (json_dump (mkGeo cache w))).

Definition nanoseconds_per_day : Z := 86400 * 1000000000.

(** [(today - ts).days]: whole days, rounded down. *)
Definition timedelta_days (today : Z) (c : DateCell) : option Z :=
  match c with
  | Timestamp ns => Some ((today - ns) / nanoseconds_per_day)
  | _ => None
  end.

(** [df["days_since_update"] > 90]; a comparison with NaN is false. *)
Definition gt_90 (days : option Z) : bool :=
  match days with
  | Some d => 90 <? d
  | None => false
  end.

(** [df["days_since_update"] = (today - df["last_updated"]).dt.days]
    on one row. *)
Definition subtract_days (today : Z) (r : Row) : Row :=
  set_days_since_update (timedelta_days today (last_updated r)) r.

(** [df["is_offline"] = df["days_since_update"] > 90] on one row. *)
Definition flag_offline (r : Row) : Row :=
  set_is_offline (gt_90 (days_since_update r)) r.

Section Transform.

Variable geolocator_reverse : nat -> float -> float -> Reverse.

(** [pd.to_datetime(column, errors='coerce')]: what one text of the
    column is parsed to, in nanoseconds on the time line of
    [pd.Timestamp.now()], or [None] for text that is no date. The format
    may be inferred from the column, so the column is an argument. *)
Variable to_datetime : list DateCell -> string -> option Z.

(** Whether the parsed column carries a time zone. [pd.Timestamp.now()]
    carries none, and pandas refuses to subtract across that line. *)
Variable tz_aware : list DateCell -> bool.

(** [pd.Timestamp.now()], read once in a pass. *)
Variable timestamp_now : Z.

Definition to_datetime_coerce (column : list DateCell) (c : DateCell)
  : DateCell :=
  match c with
  | DateText s => match to_datetime column s with
                  | Some ns => Timestamp ns
                  | None => NaT
                  end
  | _ => c
  end.

(** [df["last_updated"] = pd.to_datetime(df["last_updated"],
    errors='coerce')] on one row. *)
Definition parse_last_updated (column : list DateCell) (r : Row) : Row :=
  set_last_updated (to_datetime_coerce column (last_updated r)) r.

Definition transform_stations (df : DataFrame) : M World DataFrame :=
  (* STEP 1 *)
  df <- lift (drop_duplicates df) ;;
  let cols := columns df in
  (* STEP 2 *)
  column "operator" cols ;;;
  let rs := standardize_operators (rows df) in
  let cols := with_column "operator_clean" cols in
  (* STEP 3 *)
  cache <- load_cache ;;
  res <- with_geocode_cache cache
           (apply_get_city geolocator_reverse cols rs) ;;
  let rs := fst res in
  let cols := with_column "city" cols in
  save_cache (snd res) ;;;
  (* STEP 4 *)
  column "last_updated" cols ;;;
  let texts := map last_updated rs in
  let rs := map (parse_last_updated texts) rs in
  let today := timestamp_now in
  (if tz_aware texts then raise TypeError else ret tt) ;;;
  let rs := map (subtract_days today) rs in
  let cols := with_column "days_since_update" cols in
  let rs := map flag_offline rs in
  let cols := with_column "is_offline" cols in
  ret (mkDataFrame cols rs).

End Transform.

(** ** Extract *)

(** A station object of the listing, as far as the mapping reads it. A
    field read with a subscript is [None] when the key is absent. *)
Record JsonAddressInfo : Type := mkJsonAddressInfo {
  Title : option string;
  Latitude : option float;
  Longitude : option float;
  AddressLine1 : option string
}.

(** An entry read with [dict.get]: the key is absent, or its value is
    JSON [null], or it has a value. *)
Inductive JsonField (A : Type) : Type :=
| Absent
| Null
| Value (a : A).

Arguments Absent {A}.
Arguments Null {A}.
Arguments Value {A} a.

Record JsonOperatorInfo : Type := mkJsonOperatorInfo {
  OperatorTitle : JsonField string
}.

Record JsonStation : Type := mkJsonStation {
  ID : option Z;
  AddressInfo : option JsonAddressInfo;
  OperatorInfo : JsonField JsonOperatorInfo;
  DateLastConfirmed : JsonField string;
  DateLastStatusUpdate : JsonField string
}.

(** [d[key]] *)
Definition subscript {A} (key : string) (v : option A) : Result A :=
  match v with
  | Some a => Ok a
  | None => Raise (KeyError key)
  end.

(** [station.get(key) or b]: [None] and the empty string are false. *)
Definition or_else (a : JsonField string) (b : string) : string :=
  match a with
  | Value (String c s) => String c s
  | _ => b
  end.

(** [station.get("OperatorInfo", {}).get("Title", "Unknown")]: the
    defaults stand in for absent keys only; a [null] operator has no
    [get], a [null] title is [None]. *)
Definition operator_title (station : JsonStation) : Result (option string) :=
  match OperatorInfo station with
  | Absent => Ok (Some "Unknown")
  | Null => Raise AttributeError
  | Value info =>
      match OperatorTitle info with
      | Absent => Ok (Some "Unknown")
      | Null => Ok None
      | Value t => Ok (Some t)
      end
  end.

(** The dictionary [station_info] of one station, its entries evaluated
    in the order they are written. *)
Definition station_info (station : JsonStation) : Result Row :=
  match subscript "ID" (ID station) with
  | Raise e => Raise e
  | Ok i =>
  match subscript "AddressInfo" (AddressInfo station) with
  | Raise e => Raise e
  | Ok info =>
  match subscript "Title" (Title info) with
  | Raise e => Raise e
  | Ok title =>
  match subscript "Latitude" (Latitude info) with
  | Raise e => Raise e
  | Ok lat =>
  match subscript "Longitude" (Longitude info) with
  | Raise e => Raise e
  | Ok lon =>
  match subscript "AddressLine1" (AddressLine1 info) with
  | Raise e => Raise e
  | Ok line =>
  match operator_title station with
  | Raise e => Raise e
  | Ok op =>
      let updated :=
        or_else (DateLastConfirmed station)
                (or_else (DateLastStatusUpdate station) "Unknown") in
      Ok (mkRow i title lat lon line op (DateText updated)
                None "" None false)
  end end end end end end end.

Fixpoint station_infos (data : list JsonStation) : Result (list Row) :=
  match data with
  | [] => Ok []
  | station :: data' =>
      match station_info station with
      | Raise e => Raise e
      | Ok r =>
          match station_infos data' with
          | Raise e => Raise e
          | Ok rs => Ok (r :: rs)
          end
      end
  end.

Inductive Body : Type :=
| NoText
| NotJson
| JsonArray (data : list JsonStation).

Record Response : Type := mkResponse {
  status_code : Z;
  body : Body
}.

(** The network as the extraction sees it: the [skip] parameter of every
    request sent, oldest first, and the seconds slept. *)
Record Net : Type := mkNet {
  requests : list Z;
  slept : nat
}.

(** [max_pages and page >= max_pages] *)
Definition max_pages_reached (max_pages : option nat) (page : nat) : bool :=
  match max_pages with
  | None => false
  | Some O => false
  | Some m => (m <=? page)%nat
  end.

Section Extract.

(** The listing API: the response to a request may depend on how many
    requests were sent before, and on [skip]. *)
Variable requests_get : nat -> Z -> Response.

(** The [while True] loop; [fuel] bounds the number of iterations, and
    [None] means the bound was reached. *)
Fixpoint extract_loop (fuel : nat) (max_pages : option nat) (page : nat)
         (skip : Z) (all_stations : list Row) (net : Net)
  : option (Result (list Row) * Net) :=
  match fuel with
  | O => None
  | S fuel' =>
      let page := S page in
      let response := requests_get (length (requests net)) skip in
      let net := mkNet (requests net ++ [skip])%list (slept net) in
      if negb (status_code response =? 200)
      then Some (Raise (RequestFailed (status_code response)), net)
      else
        match body response with
        | NoText => Some (Ok all_stations, net)
        | NotJson => Some (Raise JSONDecodeError, net)
        | JsonArray [] => Some (Ok all_stations, net)
        | JsonArray data =>
            match station_infos data with
            | Raise e => Some (Raise e, net)
            | Ok infos =>
                let all_stations := (all_stations ++ infos)%list in
                let skip := skip + 500 in
                if max_pages_reached max_pages page
                then Some (Ok all_stations, net)
                else
                  let net := mkNet (requests net) (S (slept net)) in
                  extract_loop fuel' max_pages page skip all_stations net
            end
        end
  end.

Definition extract_charging_stations (fuel : nat) (max_pages : option nat)
           (net : Net) : option (Result DataFrame * Net) :=
  match extract_loop fuel max_pages 0 0 [] net with
  | Some (Ok all_stations, net') => Some (Ok (pd_DataFrame all_stations), net')
  | Some (Raise e, net') => Some (Raise e, net')
  | None => None
  end.

End Extract.

(** A listing that answers every request with stations. *)
Definition listing_always_answers (requests_get : nat -> Z -> Response)
  : Prop :=
  forall k skip, exists station data infos,
    requests_get k skip = mkResponse 200 (JsonArray (station :: data))
    /\ station_infos (station :: data) = Ok infos.

(** ** Load *)

Inductive SqlValue : Type :=
| SqlNull
| SqlInteger (z : Z)
| SqlReal (x : float)
| SqlText (s : string)
| SqlTimestamp (ns : Z).

(** The columns of [CREATE TABLE stations], the primary key first. *)
Definition stations_columns : list string :=
  ["id"; "name"; "latitude"; "longitude"; "address"; "operator_clean";
   "city"; "is_offline"; "days_since_update"; "last_updated"].

Definition sql_text (s : option string) : SqlValue :=
  match s with Some t => SqlText t | None => SqlNull end.

(** The value a frame holds under a label, as it is bound to the
    INSERT statement. *)
Definition sql_value (c : string) (r : Row) : SqlValue :=
  if String.eqb c "id" then SqlInteger (id r)
  else if String.eqb c "name" then SqlText (name r)
  else if String.eqb c "latitude" then SqlReal (latitude r)
  else if String.eqb c "longitude" then SqlReal (longitude r)
  else if String.eqb c "address" then SqlText (address r)
  else if String.eqb c "operator" then sql_text (operator r)
  else if String.eqb c "operator_clean" then sql_text (operator_clean r)
  else if String.eqb c "city" then SqlText (city r)
  else if String.eqb c "is_offline"
       then SqlInteger (if is_offline r then 1 else 0)
  else if String.eqb c "days_since_update"
       then match days_since_update r with
            | Some d => SqlInteger d
            | None => SqlNull
            end
  else if String.eqb c "last_updated"
       then match last_updated r with
            | DateText s => SqlText s
            | Timestamp ns => SqlTimestamp ns
            | NaT => SqlNull
            end
  else SqlNull.

(** The stored row: one value per table column, NULL where the frame
    has no such column. *)
Definition sql_row (cols : list string) (r : Row) : list SqlValue :=
  map (fun c => if existsb (String.eqb c) cols then sql_value c r
                else SqlNull)
      stations_columns.

(** A [sqlite3] connection: the rows the database file holds, and the
    rows as the connection sees them, which differ while a transaction
    is open. Both are keyed by the primary key [id]. *)
Record Connection : Type := mkConnection {
  committed : gmap Z (list SqlValue);
  working : gmap Z (list SqlValue)
}.

Definition commit (conn : Connection) : Connection :=
  mkConnection (working conn) (working conn).

Definition rollback (conn : Connection) : Connection :=
  mkConnection (committed conn) (committed conn).

(** [DELETE FROM stations WHERE id IN (?, ..., ?)] with [ids] bound.
    The statement runs in the transaction that [sqlite3] opens for it.
    SQLite accepts an empty list after IN, and no row matches it. *)
Definition delete_where_id_in (ids : list Z) (conn : Connection)
  : Connection :=
  mkConnection (committed conn) (foldr delete (working conn) ids).

(** One INSERT per row; a row whose [id] is in the table violates the
    primary key, and the rows before it stay inserted. *)
Fixpoint executemany_insert (cols : list string) (rs : list Row)
         (t : gmap Z (list SqlValue))
  : Result unit * gmap Z (list SqlValue) :=
  match rs with
  | [] => (Ok tt, t)
  | r :: rs' =>
      match t !! id r with
      | Some _ => (Raise (IntegrityError (id r)), t)
      | None => executemany_insert cols rs' (<[id r := sql_row cols r]> t)
      end
  end.

Definition unknown_column (cols : list string) : option string :=
  List.find (fun c => negb (existsb (String.eqb c) stations_columns)) cols.

Section Loading.

(** The largest number of [?] a statement may hold (999 or 32766,
    by the SQLite version). *)
Variable SQLITE_MAX_VARIABLE_NUMBER : nat.

(** Whether [to_sql] ends the transaction itself: commit when the
    rows are in, rollback when an INSERT fails. *)
Variable to_sql_ends_transaction : bool.

(** [df.to_sql("stations", conn, if_exists="append", index=False)];
    a frame without rows sends no statement. *)
Definition to_sql (df : DataFrame) (conn : Connection)
  : Result unit * Connection :=
  match rows df with
  | [] => (Ok tt, conn)
  | _ :: _ =>
      let res :=
        match unknown_column (columns df) with
        | Some c =>
            (Raise (OperationalError
                      ("table stations has no column named " ++ c)%string),
             working conn)
        | None => executemany_insert (columns df) (rows df) (working conn)
        end in
      let conn := mkConnection (committed conn) (snd res) in
      match fst res with
      | Ok _ =>
          (Ok tt, if to_sql_ends_transaction then commit conn else conn)
      | Raise e =>
          (Raise e, if to_sql_ends_transaction then rollback conn else conn)
      end
  end.

Definition load_to_db (df : DataFrame) (conn : Connection)
  : Result unit * Connection :=
  if negb (has_column "id" df) then (Raise (KeyError "id"), conn)
  else
    let ids := map id (rows df) in
    if (SQLITE_MAX_VARIABLE_NUMBER <? length ids)%nat
    then (Raise (OperationalError "too many SQL variables"), conn)
    else
      let conn := delete_where_id_in ids conn in
      match to_sql df conn with
      | (Raise e, conn) => (Raise e, conn)
      | (Ok _, conn) => (Ok tt, commit conn)
      end.

End Loading.

(** ** The database file, and reading it *)

(** [init_db]: the file [charging_stations.db] holds the rows of the
    table [stations], or does not exist ([None]); connecting creates it,
    CREATE TABLE IF NOT EXISTS leaves an existing table as it is, and
    the connection returned has no transaction open. *)
Definition init_db (db : option (gmap Z (list SqlValue))) : Connection :=
  mkConnection (default ∅ db) (default ∅ db).

(** [read_from_db]: [SELECT * FROM stations] as the connection sees the
    table, which SQLite walks in the order of the primary key. *)
Definition by_id (a b : Z * list SqlValue) : Prop := fst a <= fst b.

#[global] Instance by_id_dec : RelDecision by_id :=
  fun a b => decide (fst a <= fst b).

Definition read_from_db (conn : Connection) : list (list SqlValue) :=
  map snd (merge_sort by_id (map_to_list (working conn))).

Fixpoint column_index (c : string) (cols : list string) : nat :=
  match cols with
  | [] => O
  | c' :: cols' => if String.eqb c c' then O else S (column_index c cols')
  end.

(** The value of a stored row in a column of the table. *)
Definition field (c : string) (row : list SqlValue) : SqlValue :=
  nth (column_index c stations_columns) row SqlNull.

(** The integer a float is, if it is one. *)
Definition float_integer (x : float) : option Z :=
  match Prim2SF x with
  | S754_zero _ => Some 0
  | S754_finite s m e =>
      let sign := if s then -1 else 1 in
      if 0 <=? e then Some (sign * (Z.pos m * 2 ^ e))
      else if Z.pos m mod 2 ^ (- e) =? 0
           then Some (sign * (Z.pos m / 2 ^ (- e)))
           else None
  | _ => None
  end.

(** [column = n] in a WHERE clause, for an integer [n]. *)
Definition sql_eq_integer (v : SqlValue) (n : Z) : bool :=
  match v with
  | SqlInteger z => z =? n
  | SqlReal x => match float_integer x with
                 | Some z => z =? n
                 | None => false
                 end
  | _ => false
  end.

(** [column != 'text'] in a WHERE clause; NULL satisfies no comparison. *)
Definition sql_ne_text (v : SqlValue) (s : string) : bool :=
  match v with
  | SqlNull => false
  | SqlText t => negb (String.eqb t s)
  | _ => true
  end.

(** Whether GROUP BY puts two values in one group. *)
Definition sql_same_group (a b : SqlValue) : bool :=
  match a, b with
  | SqlNull, SqlNull => true
  | SqlInteger x, SqlInteger y => x =? y
  | SqlReal x, SqlReal y => PrimFloat.eqb x y
  | SqlInteger x, SqlReal y | SqlReal y, SqlInteger x =>
      match float_integer y with
      | Some z => z =? x
      | None => false
      end
  | SqlText x, SqlText y => String.eqb x y
  | SqlTimestamp x, SqlTimestamp y => x =? y
  | _, _ => false
  end.

Fixpoint count_in_group (v : SqlValue) (groups : list (SqlValue * nat))
  : list (SqlValue * nat) :=
  match groups with
  | [] => [(v, 1%nat)]
  | (k, n) :: groups' =>
      if sql_same_group k v then (k, S n) :: groups'
      else (k, n) :: count_in_group v groups'
  end.

(** [SELECT column, COUNT( * ) ... GROUP BY column] on the values of the
    column. *)
Definition group_by_count (values : list SqlValue)
  : list (SqlValue * nat) :=
  fold_left (fun groups v => count_in_group v groups) values [].

Record Stats : Type := mkStats {
  total : nat;
  offline : nat;
  online : nat;
  by_operator : list (SqlValue * nat);
  by_city : list (SqlValue * nat)
}.

Section Statistics.

(** ORDER BY count DESC: SQLite does not say in which order it leaves
    groups of the same count. *)
Variable order_by_count_desc :
  list (SqlValue * nat) -> list (SqlValue * nat).

Definition get_stats (conn : Connection) : Stats :=
  let table := read_from_db conn in
  mkStats
    (length table)
    (length (List.filter (fun row => sql_eq_integer (field "is_offline" row) 1)
                    table))
    (length (List.filter (fun row => sql_eq_integer (field "is_offline" row) 0)
                    table))
    (group_by_count (map (field "operator_clean") table))
    (firstn 10
       (order_by_count_desc
          (group_by_count
             (map (field "city")
                  (List.filter (fun row => sql_ne_text (field "city" row)
                                                  "Unknown")
                          table))))).

End Statistics.

(** [list_offline_stations] of [alerts.py]: a connection of its own on
    the database file, [read_from_db], and the rows whose [is_offline]
    equals [True], which 1 does. Without the table the query fails. *)
Definition list_offline_stations (db : option (gmap Z (list SqlValue)))
  : Result (list (list SqlValue)) :=
  match db with
  | None => Raise (OperationalError "no such table: stations")
  | Some t =>
      Ok (List.filter
            (fun row => sql_eq_integer (field "is_offline" row) 1)
            (read_from_db (mkConnection t t)))
  end.

(** ** The pipeline script *)

Section Pipeline.

Variable requests_get : nat -> Z -> Response.
Variable geolocator_reverse : nat -> float -> float -> Reverse.
Variable to_datetime : list DateCell -> string -> option Z.
Variable tz_aware : list DateCell -> bool.
Variable timestamp_now : Z.
Variable SQLITE_MAX_VARIABLE_NUMBER : nat.
Variable to_sql_ends_transaction : bool.

(** Lines 234-253 of [etl_pipeline.py]: extract without page limit,
    transform, open the database, load, close. An exception ends the
    script where it is raised; what a connection has not committed is
    lost with it. The result comes with the network, the world and the
    database file as the script leaves them. *)
Definition etl_pipeline_main (fuel : nat) (net : Net) (w : World)
           (db : option (gmap Z (list SqlValue)))
  : option (Result unit
            * (Net * World * option (gmap Z (list SqlValue)))) :=
  match extract_charging_stations requests_get fuel None net with
  | None => None
  | Some (Raise e, net) => Some (Raise e, (net, w, db))
  | Some (Ok df, net) =>
      match transform_stations geolocator_reverse to_datetime tz_aware
                               timestamp_now df w with
      | (Raise e, w) => Some (Raise e, (net, w, db))
      | (Ok df_clean, w) =>
          let conn := init_db db in
          match load_to_db SQLITE_MAX_VARIABLE_NUMBER
                           to_sql_ends_transaction df_clean conn with
          | (Raise e, conn) =>
              Some (Raise e, (net, w, Some (committed conn)))
          | (Ok _, conn) => Some (Ok tt, (net, w, Some (committed conn)))
          end
      end
  end.

End Pipeline.

(** ** Sample stations, services and stores *)

(** A geocoder that answers every other lookup. *)
Definition sample_reverse (n : nat) (lat lon : float) : Reverse :=
  if Nat.even n then Location (Some (mkAddress (Some "Shanghai") None))
  else ReverseRaises.

(** A geocoder that is down. *)
Definition failing_reverse (n : nat) (lat lon : float) : Reverse :=
  ReverseRaises.

(** A date parser that knows two days, counted from 1970-01-01, and
    yields timestamps without time zone. *)
Definition sample_to_datetime (column : list DateCell) (s : string)
  : option Z :=
  if String.eqb s "2026-04-17T00:00:00" then Some (20560 * nanoseconds_per_day)
  else if String.eqb s "2026-10-29T00:00:00"
       then Some (20755 * nanoseconds_per_day)
  else None.

Definition sample_tz_aware (column : list DateCell) : bool := false.

(** Noon of 2026-11-03. *)
Definition sample_now : Z :=
  20760 * nanoseconds_per_day + 12 * 3600 * 1000000000.

Definition sample_station (i : Z) (lat lon : float) (op updated : string)
  : Row :=
  mkRow i "Station" lat lon "1 Main Road" (Some op) (DateText updated)
        None "" None false.

Definition sample_batch : list Row :=
  [ sample_station 1 31.25 121.5 "Tesla BP Supercharger"
                   "2026-04-17T00:00:00";
    sample_station 2 39.875 116.375 "Unknown Co" "2026-10-29T00:00:00";
    sample_station 1 31.25 121.5 "Shell Recharge" "Unknown" ].

Definition degrees (n : nat) : float :=
  Nat.iter n (fun x => PrimFloat.add x 1) 0%float.

(** The transform pass among the sample services. *)
Definition sample_transform : DataFrame -> M World DataFrame :=
  transform_stations sample_reverse sample_to_datetime sample_tz_aware
                     sample_now.

(** Stations in a row, one degree of latitude apart. *)
Definition stations_in_a_row (n : nat) : list Row :=
  map (fun k => sample_station (Z.of_nat k) (degrees k) 121.5
                  "State Grid" "Unknown")
      (seq 0 n).

Definition fifty_stations : list Row := stations_in_a_row 50.

(** A geocoder that fails the fiftieth lookup and no other. *)
Definition fails_the_fiftieth (n : nat) (lat lon : float) : Reverse :=
  if (n =? 49)%nat then ReverseRaises
  else Location (Some (mkAddress (Some "Shanghai") None)).

(** A listing with a thousand stations, served in pages of 500. *)
Definition sample_json_station : JsonStation :=
  mkJsonStation (Some 42)
    (Some (mkJsonAddressInfo (Some "Station") (Some 31.25%float)
                             (Some 121.5%float) (Some "1 Main Road")))
    (Value (mkJsonOperatorInfo (Value "Tesla BP Supercharger")))
    Null (Value "2026-04-17T00:00:00").

Definition sample_page : list JsonStation := repeat sample_json_station 500.

Definition sample_requests_get (n : nat) (skip : Z) : Response :=
  mkResponse 200 (JsonArray (if skip <? 1000 then sample_page else [])).

(** A database that holds station 7, with no transaction open. *)
Definition sample_table : gmap Z (list SqlValue) :=
  {[ 7 := sql_row stations_columns
            (sample_station 7 22.25 114.125 "Shell Recharge" "Unknown") ]}.

Definition sample_connection : Connection :=
  mkConnection sample_table sample_table.

(** A listing that answers every request with the same station. *)
Definition endless_requests_get (n : nat) (skip : Z) : Response :=
  mkResponse 200 (JsonArray [sample_json_station]).

#[local] Set Warnings "-inexact-float".

(** The frame [test_data] of the self-test of [database.py]. *)
Definition test_station (i : Z) (n : string) (lat lon : float)
           (a op c : string) (off : bool) (days : Z) (updated : string)
  : Row :=
  mkRow i n lat lon a None (DateText updated) (Some op) c (Some days) off.

Definition test_data : DataFrame :=
  mkDataFrame stations_columns
    [ test_station 1 "Test Station 1" 31.2 121.4 "Address 1" "Tesla"
                   "Shanghai" false 5 "2026-01-01";
      test_station 2 "Test Station 2" 39.9 116.4 "Address 2" "Other"
                   "Beijing" true 120 "2025-09-01";
      test_station 3 "Test Station 3" 22.3 114.1 "Address 3" "BP"
                   "Hong Kong" false 30 "2025-12-01" ].

(** A sorter for ORDER BY count DESC. *)
Definition by_count_desc (a b : SqlValue * nat) : Prop :=
  (snd b <= snd a)%nat.

#[global] Instance by_count_desc_dec : RelDecision by_count_desc :=
  fun a b => decide (snd b <= snd a)%nat.

Definition sample_order_by_count_desc (groups : list (SqlValue * nat))
  : list (SqlValue * nat) :=
  merge_sort by_count_desc groups.

(** The connection of the self-test after its load. *)
Definition test_connection : Connection :=
  snd (load_to_db 999 true test_data (init_db None)).

(** A world whose cache file knows the coordinates of sample station 1. *)
Definition cached_world : World :=
  mkWorld (Some (JsonObject {[ "31.250,121.500" := "Pudong" ]})) [].

(** * Properties *)

(** ** Operator names *)

Lemma operator_clean_set_city c r :
  operator_clean (set_city c r) = operator_clean r.
Proof. reflexivity. Qed.

(** Whatever the operator of a row is, the four assignments of step 2
    leave ["Other"]: the labels written by the first three are
    capitalised, and the last one keeps lower-case labels only. *)
Lemma standardize_operators_Other (rs : list Row) :
  standardize_operators rs = map (set_operator_clean (Some "Other")) rs.
Proof.
  unfold standardize_operators, str_lower_operator, loc_assign.
  rewrite !List.map_map. apply List.map_ext.
  intros r. unfold contains_na_false, isin. simpl.
  destruct (operator r) as [s|]; simpl; [|reflexivity].
  destruct (str_contains "tesla" (lower s)) eqn:Htesla; simpl;
    [reflexivity|].
  destruct (str_contains "bp" (lower s)) eqn:Hbp; simpl; [reflexivity|].
  destruct (str_contains "shell" (lower s)) eqn:Hshell; simpl;
    [reflexivity|].
  destruct (String.eqb_spec (lower s) "tesla") as [E|_];
    [rewrite E in Htesla; discriminate|].
  destruct (String.eqb_spec (lower s) "bp") as [E|_];
    [rewrite E in Hbp; discriminate|].
  destruct (String.eqb_spec (lower s) "shell") as [E|_];
    [rewrite E in Hshell; discriminate|].
  reflexivity.
Qed.

(** ** The geocoding resolver *)

Section GeocodingProperties.

Variable geolocator_reverse : nat -> float -> float -> Reverse.

Abbreviation get_city := (get_city_cached geolocator_reverse).
Abbreviation apply_city := (apply_get_city geolocator_reverse).

Ltac run_get_city :=
  unfold get_city_cached, reverse_address, try_except, bind, gets, modify,
    ret, raise; simpl.

(** A key of the dictionary is answered from it: the state, and with it
    the list of lookups, stays as it is. *)
Lemma get_city_cached_hit (lat lon : float) (g : Geo) (v : string) :
  geocode_cache g !! cache_key lat lon = Some v ->
  get_city lat lon g = (Ok v, g).
Proof. intros Hhit. run_get_city. rewrite Hhit. reflexivity. Qed.

(** A key that is not in the dictionary costs one lookup; the answer, or
    ["Unknown"], is stored under the key, and the file is written only
    after an answer. *)
Lemma get_city_cached_miss (lat lon : float) (g : Geo) :
  geocode_cache g !! cache_key lat lon = None ->
  let answer := geolocator_reverse (length (lookups (world g))) lat lon in
  exists g',
    get_city lat lon g = (Ok (resolved_city answer), g')
    /\ geocode_cache g'
       = <[cache_key lat lon := resolved_city answer]> (geocode_cache g)
    /\ lookups (world g') = (lookups (world g) ++ [(lat, lon)])%list
    /\ (cache_file (world g') = cache_file (world g)
        \/ reverse_fails answer = false
           /\ cache_file (world g') = Some (JsonObject (geocode_cache g'))).
Proof.
  intros Hmiss answer. subst answer. run_get_city. rewrite Hmiss.
  destruct (geolocator_reverse (length (lookups (world g))) lat lon)
    as [| |[a|]]; simpl.
  - eexists; repeat split; auto.
  - eexists; repeat split; auto.
  - match goal with |- context [if ?c then _ else _] => destruct c end;
      simpl.
    + eexists; do 3 (split; [reflexivity|]). right. split; reflexivity.
    + eexists; do 3 (split; [reflexivity|]). left. reflexivity.
  - eexists; repeat split; auto.
Qed.

Lemma get_city_cached_Ok (lat lon : float) (g : Geo) :
  exists city g', get_city lat lon g = (Ok city, g').
Proof.
  destruct (geocode_cache g !! cache_key lat lon) as [v|] eqn:Hcache.
  - exists v, g. apply get_city_cached_hit, Hcache.
  - destruct (get_city_cached_miss lat lon g Hcache) as (g' & H & _).
    eauto.
Qed.

(** C5. [get_city_cached] always returns a city. The city it returns is
    in the dictionary under the rounded-coordinate key afterwards. A key
    that is in the dictionary is answered from it and nothing else
    happens, so no lookup is sent. A key that is not costs exactly one
    lookup, and when that lookup fails the city is ["Unknown"]. Any later
    call for coordinates with the same key returns the same city and
    changes nothing, so it sends no lookup either. *)
Theorem get_city_cached_never_fails (lat lon : float) (g : Geo) :
  exists city g',
    get_city lat lon g = (Ok city, g')
    /\ geocode_cache g' !! cache_key lat lon = Some city
    /\ (forall v, geocode_cache g !! cache_key lat lon = Some v ->
                  city = v /\ g' = g)
    /\ (geocode_cache g !! cache_key lat lon = None ->
        lookups (world g') = (lookups (world g) ++ [(lat, lon)])%list
        /\ (reverse_fails
              (geolocator_reverse (length (lookups (world g))) lat lon)
            = true -> city = "Unknown"))
    /\ (forall lat2 lon2,
           cache_key lat2 lon2 = cache_key lat lon ->
           get_city lat2 lon2 g' = (Ok city, g')).
Proof.
  assert (Hagain : forall city g',
             geocode_cache g' !! cache_key lat lon = Some city ->
             forall lat2 lon2, cache_key lat2 lon2 = cache_key lat lon ->
                               get_city lat2 lon2 g' = (Ok city, g')).
  { intros city g' Hin lat2 lon2 Hkey. apply get_city_cached_hit.
    rewrite Hkey. exact Hin. }
  destruct (geocode_cache g !! cache_key lat lon) as [v|] eqn:Hcache.
  - exists v, g. rewrite (get_city_cached_hit _ _ _ _ Hcache).
    repeat split; auto; congruence.
  - destruct (get_city_cached_miss lat lon g Hcache)
      as (g' & Hrun & Hstore & Hsent & _).
    eexists _, g'. split; [exact Hrun|].
    assert (Hin : geocode_cache g' !! cache_key lat lon
                  = Some (resolved_city
                            (geolocator_reverse (length (lookups (world g)))
                                                lat lon))).
    { rewrite Hstore. apply lookup_insert_eq. }
    repeat split; auto; try discriminate.
    destruct (geolocator_reverse (length (lookups (world g))) lat lon)
      as [| |[a|]]; simpl; auto; discriminate.
Qed.

(** Geocoding fills in [city] and nothing else, row by row. *)
Lemma apply_get_city_rows (cols : list string) (rs rs' : list Row)
      (g g' : Geo) :
  apply_city cols rs g = (Ok rs', g') ->
  Forall2 (fun r r' => exists c, r' = set_city c r) rs rs'.
Proof.
  revert rs' g g'. induction rs as [|r rs IH]; intros rs' g g' Hrun.
  - inversion Hrun. constructor.
  - simpl in Hrun. unfold bind, column in Hrun.
    destruct (existsb (String.eqb "latitude") cols); [|discriminate].
    destruct (existsb (String.eqb "longitude") cols); [|discriminate].
    simpl in Hrun.
    destruct (get_city_cached_Ok (latitude r) (longitude r) g)
      as (c & g1 & Hc).
    rewrite Hc in Hrun.
    destruct (apply_city cols rs g1) as [[rs1|e] g2] eqn:Hrest;
      [|discriminate].
    inversion Hrun; subst. constructor; eauto.
Qed.

(** What the cache file holds has no influence on a call: two states
    with the same dictionary and the same lookups behind them give the
    same city, and again the same dictionary and lookups. *)
Lemma get_city_cached_file_blind (lat lon : float) (g1 g2 : Geo) :
  geocode_cache g1 = geocode_cache g2 ->
  lookups (world g1) = lookups (world g2) ->
  exists c g1' g2',
    get_city lat lon g1 = (Ok c, g1')
    /\ get_city lat lon g2 = (Ok c, g2')
    /\ geocode_cache g1' = geocode_cache g2'
    /\ lookups (world g1') = lookups (world g2').
Proof.
  intros Hcache Hsent.
  destruct (geocode_cache g1 !! cache_key lat lon) as [v|] eqn:H1.
  - exists v, g1, g2. rewrite (get_city_cached_hit _ _ _ _ H1).
    rewrite Hcache in H1. rewrite (get_city_cached_hit _ _ _ _ H1). auto.
  - destruct (get_city_cached_miss lat lon g1 H1)
      as (g1' & R1 & S1 & L1 & _).
    rewrite Hcache in H1.
    destruct (get_city_cached_miss lat lon g2 H1)
      as (g2' & R2 & S2 & L2 & _).
    rewrite <- Hsent in R2, S2.
    eexists _, g1', g2'. split; [exact R1|]. split; [exact R2|].
    split; congruence.
Qed.

Lemma apply_get_city_file_blind (cols : list string) (rs : list Row)
      (g1 g2 : Geo) :
  geocode_cache g1 = geocode_cache g2 ->
  lookups (world g1) = lookups (world g2) ->
  fst (apply_city cols rs g1) = fst (apply_city cols rs g2)
  /\ geocode_cache (snd (apply_city cols rs g1))
     = geocode_cache (snd (apply_city cols rs g2))
  /\ lookups (world (snd (apply_city cols rs g1)))
     = lookups (world (snd (apply_city cols rs g2))).
Proof.
  revert g1 g2. induction rs as [|r rs IH]; intros g1 g2 Hcache Hsent.
  - simpl. auto.
  - simpl. unfold bind, column.
    destruct (existsb (String.eqb "latitude") cols); [|simpl; auto].
    destruct (existsb (String.eqb "longitude") cols); [|simpl; auto].
    simpl.
    destruct (get_city_cached_file_blind (latitude r) (longitude r)
                                         g1 g2 Hcache Hsent)
      as (c & g1' & g2' & R1 & R2 & Hcache' & Hsent').
    rewrite R1, R2.
    specialize (IH g1' g2' Hcache' Hsent').
    destruct (apply_city cols rs g1') as [[rs1|e1] h1];
      destruct (apply_city cols rs g2') as [[rs2|e2] h2];
      simpl in *; destruct IH as (Hres & Hc & Hl);
      try discriminate; inversion Hres; subst; auto.
Qed.

(** While every lookup fails, geocoding never writes the cache file,
    however many cities it stores. *)
Lemma apply_get_city_failing_keeps_file (cols : list string)
      (rs : list Row) (g : Geo) :
  (forall n lat lon, reverse_fails (geolocator_reverse n lat lon) = true) ->
  cache_file (world (snd (apply_city cols rs g))) = cache_file (world g).
Proof.
  intros Hdown. revert g. induction rs as [|r rs IH]; intros g.
  - reflexivity.
  - simpl. unfold bind, column.
    destruct (existsb (String.eqb "latitude") cols); [|reflexivity].
    destruct (existsb (String.eqb "longitude") cols); [|reflexivity].
    simpl.
    assert (Hstep : exists c g1,
               get_city (latitude r) (longitude r) g = (Ok c, g1)
               /\ cache_file (world g1) = cache_file (world g)).
    { destruct (geocode_cache g !! cache_key (latitude r) (longitude r))
        as [v|] eqn:Hcache.
      - exists v, g. split; [apply get_city_cached_hit, Hcache | reflexivity].
      - destruct (get_city_cached_miss _ _ g Hcache)
          as (g1 & R & _ & _ & [Hfile|[Hans _]]).
        + eauto.
        + rewrite Hdown in Hans. discriminate. }
    destruct Hstep as (c & g1 & R & Hfile). rewrite R.
    specialize (IH g1).
    destruct (apply_city cols rs g1) as [[rs1|e] g2]; simpl in *;
      congruence.
Qed.

End GeocodingProperties.

(** ** The transform pass *)

Lemma drop_duplicates_Ok (df df1 : DataFrame) :
  drop_duplicates df = Ok df1 ->
  columns df1 = columns df
  /\ rows df1 = drop_duplicates_from [] (rows df).
Proof.
  unfold drop_duplicates. destruct (rows df) as [|r rs] eqn:Hrows.
  - intros H. inversion H; subst. rewrite Hrows. auto.
  - destruct (has_column "id" df); [|discriminate].
    intros H. inversion H; subst. auto.
Qed.

Lemma Forall2_map_map {A B C D} (R : B -> C -> Prop) (Q : A -> D -> Prop)
      (f : A -> B) (h : C -> D) (l : list A) (l' : list C) :
  (forall x y, R (f x) y -> Q x (h y)) ->
  Forall2 R (map f l) l' -> Forall2 Q l (map h l').
Proof.
  intros HRQ. revert l'.
  induction l as [|x l IH]; intros l' H; inversion H; subst; simpl;
    constructor; auto.
Qed.

(** Geocoding and the operator label leave [last_updated] alone. *)
Lemma geocoded_last_updated (v : option string) (rs rs' : list Row) :
  Forall2 (fun r r' => exists c, r' = set_city c r)
          (map (set_operator_clean v) rs) rs' ->
  map last_updated rs' = map last_updated rs.
Proof.
  revert rs'. induction rs as [|r rs IH]; intros rs' H; inversion H; subst.
  - reflexivity.
  - match goal with E : exists c, _ = set_city c _ |- _ =>
      destruct E as [c ->]
    end.
    simpl. f_equal. apply IH. assumption.
Qed.

#[local] Arguments String.eqb : simpl never.
#[local] Arguments existsb : simpl never.

Section TransformProperties.

Variable geolocator_reverse : nat -> float -> float -> Reverse.
Variable to_datetime : list DateCell -> string -> option Z.
Variable tz_aware : list DateCell -> bool.
Variable timestamp_now : Z.

Abbreviation transform :=
  (transform_stations geolocator_reverse to_datetime tz_aware timestamp_now).

Ltac run_transform :=
  unfold transform_stations, bind, lift, column, load_cache,
    with_geocode_cache, save_cache, modify, ret, raise.

(** An output row is an input row that survived step 1, with the four
    derived columns filled in; the dates are parsed as a column. *)
Lemma transform_stations_rows (df df' : DataFrame) (w w' : World) :
  transform df w = (Ok df', w') ->
  let kept := drop_duplicates_from [] (rows df) in
  Forall2 (fun r r' =>
             exists c,
               r' = flag_offline
                      (subtract_days timestamp_now
                         (parse_last_updated to_datetime
                            (map last_updated kept)
                            (set_city c
                               (set_operator_clean (Some "Other") r)))))
          kept (rows df').
Proof.
  run_transform.
  destruct (drop_duplicates df) as [df1|e] eqn:Hdd; [|discriminate].
  destruct (drop_duplicates_Ok _ _ Hdd) as [_ Hrows].
  destruct (existsb (String.eqb "operator") (columns df1)); [|discriminate].
  destruct (cache_file w) as [[|entries]|]; try discriminate;
    (destruct (apply_get_city geolocator_reverse _ _ _) as [[rs1|e] g1]
       eqn:Hgeo; [|discriminate]);
    simpl;
    (match goal with
     | |- context [if existsb ?f ?l then _ else _] =>
         destruct (existsb f l); [|discriminate]
     end);
    simpl;
    (destruct (tz_aware (map last_updated rs1)); [discriminate|]);
    intros H; inversion H; subst; clear H; simpl;
    apply apply_get_city_rows in Hgeo;
    rewrite standardize_operators_Other, Hrows in Hgeo;
    rewrite (geocoded_last_updated _ _ _ Hgeo);
    rewrite !List.map_map;
    (eapply Forall2_map_map; [|exact Hgeo]);
    intros x y [c ->]; exists c; reflexivity.
Qed.

(** C1. The specification gives every record the class Tesla, BP, Shell
    or Other by a case-insensitive substring match in that order, so
    that "Tesla BP Supercharger" is a Tesla station. In the code every
    record of every batch leaves the transform with the class ["Other"]:
    the last assignment keeps the labels ["tesla"], ["bp"] and ["shell"]
    only, and the three assignments before it write ["Tesla"], ["BP"]
    and ["Shell"]. *)
Theorem transform_stations_operator_clean_Other
        (df df' : DataFrame) (w w' : World) :
  transform df w = (Ok df', w') ->
  Forall (fun r => operator_clean r = Some "Other") (rows df').
Proof.
  intros Hrun. apply transform_stations_rows in Hrun. cbv zeta in Hrun.
  set (texts := map last_updated (drop_duplicates_from [] (rows df))) in *.
  clearbody texts.
  induction Hrun as [|r r' rs rs' [c ->] _ IH]; constructor; auto.
Qed.

(** C4. Every output row comes from an input row kept by step 1; its
    [days_since_update] is the number of whole days from the parsed
    [last_updated] to now, undefined when the text is no date, and its
    [is_offline] is true exactly when that number is defined and greater
    than 90. So 90 days are not offline, 91 days are, and an undefined
    number of days is not. *)
Theorem is_offline_iff_more_than_90_days
        (df df' : DataFrame) (w w' : World) :
  transform df w = (Ok df', w') ->
  let kept := drop_duplicates_from [] (rows df) in
  Forall2 (fun r r' =>
             days_since_update r'
             = timedelta_days timestamp_now
                 (to_datetime_coerce to_datetime (map last_updated kept)
                                     (last_updated r))
             /\ (is_offline r' = true <->
                 exists d, days_since_update r' = Some d /\ 90 < d)
             /\ (days_since_update r' = Some 90 -> is_offline r' = false)
             /\ (days_since_update r' = Some 91 -> is_offline r' = true)
             /\ (days_since_update r' = None -> is_offline r' = false))
          kept (rows df').
Proof.
  intros Hrun. apply transform_stations_rows in Hrun. cbv zeta in *.
  set (texts := map last_updated (drop_duplicates_from [] (rows df))) in *.
  clearbody texts.
  induction Hrun as [|r r' rs rs' [c ->] _ IH]; constructor; auto.
  simpl.
  destruct (timedelta_days timestamp_now
              (to_datetime_coerce to_datetime texts (last_updated r)))
    as [d|]; simpl.
  - repeat split.
    + intros H. exists d. split; [reflexivity|]. apply Z.ltb_lt, H.
    + intros (d' & Hd & Hlt). inversion Hd; subst. apply Z.ltb_lt, Hlt.
    + intros H. inversion H; subst. reflexivity.
    + intros H. inversion H; subst. reflexivity.
    + discriminate.
  - repeat split; try discriminate.
    intros (d' & Hd & _). discriminate.
Qed.

(** C8. The specification wants a transform of a batch with zero
    records to return an empty output and raise nothing. The frame that
    extraction builds from zero records has no column, so the transform
    raises [KeyError] when it reads [df["operator"]], before it touches
    the cache file. *)
Theorem transform_stations_no_records_raises (w : World) :
  transform (pd_DataFrame []) w = (Raise (KeyError "operator"), w).
Proof. reflexivity. Qed.

(** A frame without rows that does have the columns of [station_info]
    goes through: no lookup is sent and the output has no row. *)
Remark transform_stations_no_rows_with_columns (sent : list (float * float)) :
  tz_aware [] = false ->
  exists df' w',
    transform (mkDataFrame station_info_keys []) (mkWorld None sent)
    = (Ok df', w')
    /\ rows df' = [] /\ lookups w' = sent.
Proof.
  intros Hnaive. eexists _, _. split; [|split].
  - run_transform. cbn. rewrite Hnaive. reflexivity.
  - reflexivity.
  - reflexivity.
Qed.

(** C9. A cache file that does not exist is read as the empty
    dictionary: the pass returns what it returns for a file holding the
    empty JSON object, sends the same lookups and, when it returns a
    frame, leaves the same file behind. A cache file that exists and is
    not JSON makes the pass raise [JSONDecodeError] at the load, and the
    file stays as it was. *)
Theorem load_cache_missing_or_corrupt (df : DataFrame)
        (sent : list (float * float)) :
  load_cache (mkWorld None sent) = (Ok ∅, mkWorld None sent)
  /\ (let missing := transform df (mkWorld None sent) in
      let empty := transform df (mkWorld (Some (JsonObject ∅)) sent) in
      fst missing = fst empty
      /\ lookups (snd missing) = lookups (snd empty)
      /\ (is_ok (fst missing) = true -> snd missing = snd empty))
  /\ load_cache (mkWorld (Some Unparseable) sent)
     = (Raise JSONDecodeError, mkWorld (Some Unparseable) sent)
  /\ (has_column "operator" df = true ->
      rows df = [] \/ has_column "id" df = true ->
      transform df (mkWorld (Some Unparseable) sent)
      = (Raise JSONDecodeError, mkWorld (Some Unparseable) sent)).
Proof.
  split; [reflexivity|]. split; [|split; [reflexivity|]].
  - run_transform.
    destruct (drop_duplicates df) as [df1|e];
      [|simpl; repeat split; auto; discriminate].
    destruct (existsb (String.eqb "operator") (columns df1));
      [|simpl; repeat split; auto; discriminate].
    simpl.
    match goal with
    | |- context [apply_get_city ?f ?cols ?rs _] =>
        pose proof (apply_get_city_file_blind f cols rs
                      (mkGeo ∅ (mkWorld None sent))
                      (mkGeo ∅ (mkWorld (Some (JsonObject ∅)) sent))
                      eq_refl eq_refl) as (Hres & Hcache & Hsent);
        destruct (apply_get_city f cols rs (mkGeo ∅ (mkWorld None sent)))
          as [[rs1|e1] [c1 [f1 l1]]];
        destruct (apply_get_city f cols rs
                    (mkGeo ∅ (mkWorld (Some (JsonObject ∅)) sent)))
          as [[rs2|e2] [c2 [f2 l2]]]
    end; simpl in *; try discriminate.
    + inversion Hres; subst.
      match goal with
      | |- context [if ?c then _ else _] => destruct c
      end; simpl; auto.
    + inversion Hres; subst. split; auto. split; auto. discriminate.
  - intros Hop Hid. run_transform. unfold drop_duplicates.
    destruct Hid as [Hrows|Hid].
    + rewrite Hrows. unfold has_column in Hop. rewrite Hop. reflexivity.
    + destruct (rows df); rewrite ?Hid; simpl;
        unfold has_column in Hop; rewrite Hop; reflexivity.
Qed.

End TransformProperties.

(** ** Extraction *)

Lemma station_infos_length (data : list JsonStation) (rs : list Row) :
  station_infos data = Ok rs -> length rs = length data.
Proof.
  revert rs. induction data as [|station data IH]; intros rs H; simpl in H.
  - inversion H. reflexivity.
  - destruct (station_info station); [|discriminate].
    destruct (station_infos data); [|discriminate].
    inversion H; subst. simpl. f_equal. apply IH. reflexivity.
Qed.

Lemma max_pages_not_reached (max_pages : option nat) (page : nat) :
  (forall m, max_pages = Some m -> m = 0%nat \/ (page < m)%nat) ->
  max_pages_reached max_pages page = false.
Proof.
  intros H. destruct max_pages as [[|m]|]; try reflexivity.
  destruct (H (S m) eq_refl) as [|Hlt]; [discriminate|].
  unfold max_pages_reached. apply Nat.leb_gt, Hlt.
Qed.

Section ExtractProperties.

Variable requests_get : nat -> Z -> Response.

(** C7. Against a listing that answers the first three requests with
    pages of 500, 500 and 0 well-formed stations, and without a page
    limit below three, extraction returns: it has sent exactly three
    requests, with offsets 0, 500 and 1000, and its frame holds exactly
    the 1000 records of the two pages. Any bound of three or more
    iterations gives this result. *)
Theorem extract_500_500_0 (max_pages : option nat)
        (page1 page2 : list JsonStation) (rows1 rows2 : list Row)
        (fuel : nat) :
  (forall m, max_pages = Some m -> m = 0%nat \/ (3 <= m)%nat) ->
  requests_get 0%nat 0 = mkResponse 200 (JsonArray page1) ->
  requests_get 1%nat 500 = mkResponse 200 (JsonArray page2) ->
  requests_get 2%nat 1000 = mkResponse 200 (JsonArray []) ->
  length page1 = 500%nat ->
  length page2 = 500%nat ->
  station_infos page1 = Ok rows1 ->
  station_infos page2 = Ok rows2 ->
  (3 <= fuel)%nat ->
  extract_charging_stations requests_get fuel max_pages (mkNet [] 0)
  = Some (Ok (pd_DataFrame (rows1 ++ rows2)), mkNet [0; 500; 1000] 2)
  /\ length (rows (pd_DataFrame (rows1 ++ rows2))) = 1000%nat.
Proof.
  intros Hmax H1 H2 H3 Hlen1 Hlen2 Hmap1 Hmap2 Hfuel.
  assert (Hrows : length (rows1 ++ rows2)%list = 1000%nat).
  { rewrite length_app, (station_infos_length _ _ Hmap1),
      (station_infos_length _ _ Hmap2), Hlen1, Hlen2. reflexivity. }
  split.
  - destruct fuel as [|[|[|fuel]]]; try lia.
    assert (Hcap1 : max_pages_reached max_pages 1 = false).
    { apply max_pages_not_reached. intros m Hm.
      destruct (Hmax m Hm); [left|right]; lia. }
    assert (Hcap2 : max_pages_reached max_pages 2 = false).
    { apply max_pages_not_reached. intros m Hm.
      destruct (Hmax m Hm); [left|right]; lia. }
    destruct page1 as [|s1 page1]; [discriminate|].
    destruct page2 as [|s2 page2]; [discriminate|].
    unfold extract_charging_stations.
    cbn [extract_loop requests slept length app].
    change (0 + 500) with 500. change (500 + 500) with 1000.
    rewrite H1. cbn [status_code body Z.eqb Pos.eqb negb].
    rewrite Hmap1, Hcap1.
    rewrite H2. cbn [status_code body Z.eqb Pos.eqb negb].
    rewrite Hmap2, Hcap2.
    rewrite H3. cbn [status_code body Z.eqb Pos.eqb negb].
    reflexivity.
  - destruct (rows1 ++ rows2)%list; [discriminate|exact Hrows].
Qed.

End ExtractProperties.

(** ** Loading *)

(** An INSERT touches the key of its row only. *)
Lemma executemany_insert_other (cols : list string) (rs : list Row)
      (t : gmap Z (list SqlValue)) (k : Z) :
  Forall (fun r => id r <> k) rs ->
  snd (executemany_insert cols rs t) !! k = t !! k.
Proof.
  intros H. revert t. induction H as [|r rs Hr _ IH]; intros t; simpl.
  - reflexivity.
  - destruct (t !! id r); [reflexivity|].
    rewrite IH. apply lookup_insert_ne, Hr.
Qed.

(** Deleting the keys of a batch undoes whatever part of the batch was
    inserted. *)
Lemma delete_after_insert (cols : list string) (rs : list Row)
      (t : gmap Z (list SqlValue)) (ids : list Z) :
  Forall (fun r => id r ∈ ids) rs ->
  foldr delete (snd (executemany_insert cols rs t)) ids
  = foldr delete t ids.
Proof.
  intros H. revert t. induction H as [|r rs Hr _ IH]; intros t; simpl.
  - reflexivity.
  - destruct (t !! id r); [reflexivity|].
    rewrite IH. apply foldr_delete_insert_in, Hr.
Qed.

Lemma delete_twice (t : gmap Z (list SqlValue)) (ids : list Z) :
  foldr delete (foldr delete t ids) ids = foldr delete t ids.
Proof.
  apply foldr_delete_id, Forall_forall. intros k Hk.
  apply lookup_foldr_delete, Hk.
Qed.

Lemma Forall_id_in_ids (rs : list Row) :
  Forall (fun r => id r ∈ map id rs) rs.
Proof.
  apply Forall_forall. intros r Hr.
  apply list_elem_of_In, in_map, list_elem_of_In, Hr.
Qed.

(** Whether the INSERTs go through depends on the table only through
    which keys of the batch it holds. *)
Lemma executemany_insert_result (cols : list string) (rs : list Row)
      (t t' : gmap Z (list SqlValue)) :
  Forall (fun r => t !! id r = None <-> t' !! id r = None) rs ->
  fst (executemany_insert cols rs t) = fst (executemany_insert cols rs t').
Proof.
  revert t t'. induction rs as [|r rs IH]; intros t t' H; simpl.
  - reflexivity.
  - inversion H as [|? ? Hr Hrs]; subst.
    destruct (t !! id r) eqn:Ht; destruct (t' !! id r) eqn:Ht'.
    + reflexivity.
    + destruct Hr as [_ Hr]. discriminate (Hr eq_refl).
    + destruct Hr as [Hr _]. discriminate (Hr eq_refl).
    + apply IH. eapply Forall_impl; [exact Hrs|]. intros r' Hr'. simpl in *.
      destruct (decide (id r = id r')) as [E|E].
      * rewrite E, !lookup_insert_eq. split; discriminate.
      * rewrite !lookup_insert_ne by exact E. exact Hr'.
Qed.

(** On a table that holds no key of the batch, the INSERTs go through
    exactly when no identifier occurs twice, and then every row of the
    batch is stored under its identifier. *)
Lemma executemany_insert_Ok (cols : list string) (rs : list Row)
      (t : gmap Z (list SqlValue)) :
  fst (executemany_insert cols rs t) = Ok tt ->
  NoDup (map id rs)
  /\ Forall (fun r => t !! id r = None) rs
  /\ Forall (fun r => snd (executemany_insert cols rs t) !! id r
                      = Some (sql_row cols r)) rs.
Proof.
  revert t. induction rs as [|r rs IH]; intros t H; simpl in *.
  - repeat constructor.
  - destruct (t !! id r) eqn:Ht; [discriminate|].
    destruct (IH _ H) as (Hnodup & Hfresh & Hstored).
    assert (Hnotin : Forall (fun r' => id r' <> id r) rs).
    { eapply Forall_impl; [exact Hfresh|]. intros r' Hr' E. simpl in Hr'.
      rewrite E, lookup_insert_eq in Hr'. discriminate. }
    split; [|split].
    + constructor; [|exact Hnodup].
      intros Hin. apply list_elem_of_In, in_map_iff in Hin.
      destruct Hin as (r' & E & Hr').
      rewrite Forall_forall in Hnotin.
      apply (Hnotin r'); [apply list_elem_of_In, Hr' | exact E].
    + constructor; [exact Ht|].
      eapply Forall_impl; [exact Hfresh|]. intros r' Hr'. simpl in Hr'.
      destruct (decide (id r = id r')) as [E|E].
      * rewrite E, lookup_insert_eq in Hr'. discriminate.
      * rewrite lookup_insert_ne in Hr' by exact E. exact Hr'.
    + constructor; [|exact Hstored].
      rewrite executemany_insert_other by exact Hnotin.
      apply lookup_insert_eq.
Qed.

Section LoadProperties.

Variable SQLITE_MAX_VARIABLE_NUMBER : nat.
Variable to_sql_ends_transaction : bool.

Abbreviation load :=
  (load_to_db SQLITE_MAX_VARIABLE_NUMBER to_sql_ends_transaction).

(** C2. Loading a batch a second time, on the connection as the first
    load left it, ends as the first load ended and leaves the connection
    in the state the first load left it in: the same rows, with the same
    values, in the database file and in the view of the connection. *)
Theorem load_to_db_idempotent (df : DataFrame) (conn : Connection) :
  load df (snd (load df conn)) = load df conn.
Proof.
  unfold load_to_db.
  destruct (has_column "id" df); simpl; [|reflexivity].
  destruct (SQLITE_MAX_VARIABLE_NUMBER <? length (map id (rows df)))%nat;
    simpl; [reflexivity|].
  unfold to_sql, delete_where_id_in. simpl.
  destruct (rows df) as [|r rs] eqn:Hrows.
  - simpl. destruct to_sql_ends_transaction; reflexivity.
  - rewrite <- Hrows. clear r rs Hrows.
    pose proof (Forall_id_in_ids (rows df)) as Hin.
    set (ids := map id (rows df)) in *.
    destruct (unknown_column (columns df)) as [c|].
    + simpl. destruct to_sql_ends_transaction; simpl; [reflexivity|].
      rewrite delete_twice. reflexivity.
    + destruct (executemany_insert (columns df) (rows df)
                  (foldr delete (working conn) ids)) as [res t2] eqn:Hrun.
      assert (Hdel : foldr delete t2 ids = foldr delete (working conn) ids).
      { change t2 with (snd (res, t2)). rewrite <- Hrun.
        rewrite delete_after_insert by exact Hin. apply delete_twice. }
      destruct res as [[]|e]; simpl.
      * assert (Hsame :
                  (if to_sql_ends_transaction
                   then commit (mkConnection (committed conn) t2)
                   else mkConnection (committed conn) t2)
                  = mkConnection
                      (if to_sql_ends_transaction then t2
                       else committed conn) t2)
          by (destruct to_sql_ends_transaction; reflexivity).
        rewrite Hsame. simpl.
        rewrite Hdel, Hrun. simpl.
        destruct to_sql_ends_transaction; reflexivity.
      * destruct to_sql_ends_transaction; simpl.
        -- assert (Hres :
                     fst (executemany_insert (columns df) (rows df)
                            (foldr delete (committed conn) ids))
                     = Raise e).
           { change (Raise e) with (fst (@Raise unit e, t2)).
             rewrite <- Hrun. apply executemany_insert_result.
             eapply Forall_impl; [exact Hin|]. intros r Hr. simpl in Hr.
             rewrite !lookup_foldr_delete by exact Hr. tauto. }
           destruct (executemany_insert (columns df) (rows df)
                       (foldr delete (committed conn) ids)) as [res' t'].
           simpl in Hres. subst res'. reflexivity.
        -- rewrite Hdel, Hrun. reflexivity.
Qed.

(** C3. When [load_to_db] raises, the database file holds the rows it
    held before: nothing of the DELETE or of the INSERTs is committed;
    and where [to_sql] rolls back by itself, a connection that had no
    open transaction is back in its prior state. When [load_to_db]
    returns, everything is committed: no identifier occurs twice in the
    batch, every row of the batch is stored under its identifier, and
    every other row is the row the connection saw before. *)
Theorem load_to_db_atomic (df : DataFrame) (conn : Connection) :
  match load df conn with
  | (Raise _, conn') =>
      committed conn' = committed conn
      /\ (to_sql_ends_transaction = true ->
          working conn = committed conn -> conn' = conn)
  | (Ok _, conn') =>
      working conn' = committed conn'
      /\ NoDup (map id (rows df))
      /\ Forall (fun r => committed conn' !! id r
                          = Some (sql_row (columns df) r)) (rows df)
      /\ (forall k, k ∉ map id (rows df) ->
                    committed conn' !! k = working conn !! k)
  end.
Proof.
  unfold load_to_db.
  destruct (has_column "id" df); simpl; [|auto].
  destruct (SQLITE_MAX_VARIABLE_NUMBER <? length (map id (rows df)))%nat;
    simpl; [auto|].
  unfold to_sql, delete_where_id_in. simpl.
  destruct (rows df) as [|r rs] eqn:Hrows.
  - simpl. repeat split; auto; try constructor.
    all: destruct to_sql_ends_transaction; reflexivity.
  - rewrite <- Hrows. clear r rs Hrows.
    set (ids := map id (rows df)) in *.
    destruct (unknown_column (columns df)) as [c|].
    + simpl. split.
      * destruct to_sql_ends_transaction; reflexivity.
      * intros -> Hclean. destruct conn as [C W]. simpl in *. subst W.
        reflexivity.
    + destruct (executemany_insert (columns df) (rows df)
                  (foldr delete (working conn) ids)) as [res t2] eqn:Hrun.
      destruct res as [[]|e]; simpl.
      * assert (Hok : fst (executemany_insert (columns df) (rows df)
                             (foldr delete (working conn) ids)) = Ok tt)
          by (rewrite Hrun; reflexivity).
        destruct (executemany_insert_Ok _ _ _ Hok)
          as (Hnodup & _ & Hstored).
        rewrite Hrun in Hstored. simpl in Hstored.
        assert (Hother : forall k, k ∉ ids -> t2 !! k = working conn !! k).
        { intros k Hk. change t2 with (snd (Ok tt, t2)). rewrite <- Hrun.
          rewrite executemany_insert_other.
          - apply lookup_foldr_delete_not_elem_of, Hk.
          - apply Forall_forall. intros r Hr E. apply Hk. subst k.
            apply list_elem_of_In, in_map, list_elem_of_In, Hr. }
        destruct to_sql_ends_transaction; simpl; auto.
      * split.
        -- destruct to_sql_ends_transaction; reflexivity.
        -- intros -> Hclean. destruct conn as [C W]. simpl in *. subst W.
           reflexivity.
Qed.

(** C10. Loading a batch without records is said to raise, because
    the DELETE statement ends in an empty list. SQLite accepts such a
    list. For a frame without rows, [load_to_db] raises exactly
    when the frame has no [id] column, and then it has sent no
    statement; otherwise it deletes nothing, inserts nothing and
    commits, which leaves a connection without open transaction as it
    was. *)
Theorem load_to_db_no_records (df : DataFrame) (conn : Connection) :
  rows df = [] ->
  load df conn
  = (if has_column "id" df then (Ok tt, commit conn)
     else (Raise (KeyError "id"), conn))
  /\ (working conn = committed conn -> commit conn = conn).
Proof.
  intros Hrows. split.
  - unfold load_to_db, to_sql, delete_where_id_in. rewrite Hrows. simpl.
    destruct (has_column "id" df); simpl; [|reflexivity].
    destruct to_sql_ends_transaction; reflexivity.
  - destruct conn as [C W]. simpl. intros ->. reflexivity.
Qed.

End LoadProperties.

(** ** Runs on the sample data *)

Lemma transform_stations_operator_clean_Other_sample :
  exists df' w',
    sample_transform (pd_DataFrame sample_batch) (mkWorld None []) = (Ok df', w')
    /\ Forall (fun r => operator_clean r = Some "Other") (rows df').
Proof.
  eexists _, _. split; [vm_compute; reflexivity|].
  eapply (transform_stations_operator_clean_Other
            sample_reverse sample_to_datetime sample_tz_aware sample_now
            (pd_DataFrame sample_batch) _ (mkWorld None [])).
  vm_compute. reflexivity.
Defined.

Lemma is_offline_iff_more_than_90_days_sample :
  exists df' w',
    sample_transform (pd_DataFrame sample_batch) (mkWorld None []) = (Ok df', w')
    /\ map id (rows df') = [1; 2]
    /\ map days_since_update (rows df') = [Some 200; Some 5]
    /\ map is_offline (rows df') = [true; false]
    /\ Forall2 (fun r r' =>
                  days_since_update r'
                  = timedelta_days sample_now
                      (to_datetime_coerce sample_to_datetime
                         (map last_updated
                            (drop_duplicates_from []
                               (rows (pd_DataFrame sample_batch))))
                         (last_updated r))
                  /\ (is_offline r' = true <->
                      exists d, days_since_update r' = Some d /\ 90 < d)
                  /\ (days_since_update r' = Some 90 ->
                      is_offline r' = false)
                  /\ (days_since_update r' = Some 91 ->
                      is_offline r' = true)
                  /\ (days_since_update r' = None ->
                      is_offline r' = false))
               (drop_duplicates_from [] (rows (pd_DataFrame sample_batch)))
               (rows df').
Proof.
  eexists _, _. split; [vm_compute; reflexivity|].
  do 3 (split; [reflexivity|]).
  eapply (is_offline_iff_more_than_90_days
            sample_reverse sample_to_datetime sample_tz_aware sample_now
            (pd_DataFrame sample_batch) _ (mkWorld None [])).
  vm_compute. reflexivity.
Defined.

Lemma get_city_cached_never_fails_sample :
  exists city g',
    get_city_cached sample_reverse 31.25 121.5 (mkGeo ∅ (mkWorld None []))
    = (Ok city, g')
    /\ geocode_cache g' !! "31.250,121.500" = Some city.
Proof.
  destruct (get_city_cached_never_fails sample_reverse 31.25 121.5
              (mkGeo ∅ (mkWorld None [])))
    as (city & g' & Hrun & Hin & _).
  exists city, g'. split; [exact Hrun|exact Hin].
Defined.

(** C6. The specification wants the cache written to its file after
    every 50 new entries, so that fewer than 50 are ever unwritten.
    The write sits on the path of an answered lookup only. Here the
    geocoder is down, no cache file exists, and the pass geocodes fifty
    stations with fifty different keys: when the last row is done the
    dictionary holds 50 entries, all new, and the file still does not
    exist. *)
Theorem fifty_failed_lookups_unwritten :
  let pass :=
    apply_get_city failing_reverse
      (with_column "operator_clean" station_info_keys)
      (standardize_operators fifty_stations)
      (mkGeo ∅ (mkWorld None [])) in
  is_ok (fst pass) = true
  /\ size (geocode_cache (snd pass)) = 50%nat
  /\ length (lookups (world (snd pass))) = 50%nat
  /\ cache_file (world (snd pass)) = None.
Proof. vm_compute. repeat split. Qed.

(** One failed lookup is enough: when it is the fiftieth, the write is
    skipped, and no later entry brings the count back to a multiple of
    50 before the hundredth. *)
Remark one_failed_lookup_skips_the_write :
  let pass :=
    apply_get_city fails_the_fiftieth
      (with_column "operator_clean" station_info_keys)
      (standardize_operators (stations_in_a_row 99))
      (mkGeo ∅ (mkWorld None [])) in
  size (geocode_cache (snd pass)) = 99%nat
  /\ cache_file (world (snd pass)) = None.
Proof. vm_compute. split; reflexivity. Qed.

(** With an answering geocoder the fiftieth entry is written at once. *)
Remark fifty_answered_lookups_written :
  let pass :=
    apply_get_city (fun _ _ _ => Location (Some (mkAddress None None)))
      (with_column "operator_clean" station_info_keys)
      (standardize_operators fifty_stations)
      (mkGeo ∅ (mkWorld None [])) in
  cache_file (world (snd pass))
  = Some (JsonObject (geocode_cache (snd pass))).
Proof. vm_compute. reflexivity. Qed.

Lemma extract_500_500_0_sample :
  extract_charging_stations sample_requests_get 3 None (mkNet [] 0)
  = Some (Ok (pd_DataFrame
                (repeat (sample_station 42 31.25 121.5
                           "Tesla BP Supercharger" "2026-04-17T00:00:00")
                        500
                 ++ repeat (sample_station 42 31.25 121.5
                              "Tesla BP Supercharger" "2026-04-17T00:00:00")
                           500)),
          mkNet [0; 500; 1000] 2)
  /\ length (rows (pd_DataFrame
                (repeat (sample_station 42 31.25 121.5
                           "Tesla BP Supercharger" "2026-04-17T00:00:00")
                        500
                 ++ repeat (sample_station 42 31.25 121.5
                              "Tesla BP Supercharger" "2026-04-17T00:00:00")
                           500))) = 1000%nat.
Proof.
  apply (extract_500_500_0 sample_requests_get None sample_page sample_page).
  - intros m Hm. discriminate.
  - reflexivity.
  - reflexivity.
  - reflexivity.
  - vm_compute. reflexivity.
  - vm_compute. reflexivity.
  - vm_compute. reflexivity.
  - vm_compute. reflexivity.
  - apply le_n.
Defined.

Lemma load_cache_missing_or_corrupt_sample :
  sample_transform (pd_DataFrame sample_batch) (mkWorld (Some Unparseable) [])
  = (Raise JSONDecodeError, mkWorld (Some Unparseable) []).
Proof.
  apply (load_cache_missing_or_corrupt
           sample_reverse sample_to_datetime sample_tz_aware sample_now
           (pd_DataFrame sample_batch) []).
  - reflexivity.
  - right. reflexivity.
Defined.

(** A batch in which identifier 1 occurs twice: the second INSERT of it
    fails, and the file keeps the one row it had. *)
Lemma load_to_db_atomic_sample :
  fst (load_to_db 999 false (mkDataFrame stations_columns sample_batch)
                  sample_connection) = Raise (IntegrityError 1)
  /\ committed (snd (load_to_db 999 false
                       (mkDataFrame stations_columns sample_batch)
                       sample_connection)) = sample_table.
Proof.
  split; [vm_compute; reflexivity|].
  pose proof (load_to_db_atomic 999 false
                (mkDataFrame stations_columns sample_batch)
                sample_connection) as H.
  destruct (load_to_db 999 false (mkDataFrame stations_columns sample_batch)
                       sample_connection) as [[u|e] conn'] eqn:Hrun.
  - vm_compute in Hrun. discriminate Hrun.
  - exact (proj1 H).
Defined.

(** On a frame that has the columns of the table and no row, nothing
    is raised and the connection is as before. *)
Lemma load_to_db_no_records_returns :
  load_to_db 999 true (mkDataFrame stations_columns []) sample_connection
  = (Ok tt, sample_connection)
  /\ ~ (exists e,
          fst (load_to_db 999 true (mkDataFrame stations_columns [])
                          sample_connection) = Raise e).
Proof.
  split; [reflexivity|]. intros [e He]. discriminate He.
Qed.

Lemma load_to_db_no_records_sample :
  load_to_db 999 true (mkDataFrame stations_columns []) sample_connection
  = (Ok tt, commit sample_connection)
  /\ (working sample_connection = committed sample_connection ->
      commit sample_connection = sample_connection).
Proof.
  apply (load_to_db_no_records 999 true (mkDataFrame stations_columns [])
                               sample_connection).
  reflexivity.
Defined.

(** * Further properties *)

(** ** Step 1: duplicates *)

Lemma existsb_Zeqb (i : Z) (seen : list Z) :
  existsb (Z.eqb i) seen = true <-> i ∈ seen.
Proof.
  rewrite existsb_exists. split.
  - intros (j & Hin & E). apply Z.eqb_eq in E. subst j.
    apply list_elem_of_In, Hin.
  - intros Hin. exists i. split; [apply list_elem_of_In, Hin|].
    apply Z.eqb_refl.
Qed.

(** What [drop_duplicates_from] keeps: rows with new identifiers, each
    identifier once, and of each identifier the first row. *)
Lemma drop_duplicates_from_spec (seen : list Z) (rs : list Row) :
  NoDup (map id (drop_duplicates_from seen rs))
  /\ (forall i, i ∈ map id (drop_duplicates_from seen rs)
                <-> i ∈ map id rs /\ i ∉ seen)
  /\ (forall r, r ∈ drop_duplicates_from seen rs ->
                exists l1 l2, rs = (l1 ++ r :: l2)%list
                              /\ id r ∉ map id l1).
Proof.
  revert seen. induction rs as [|r rs IH]; intros seen; simpl.
  - split; [constructor|]. split.
    + intros i. split; [intros H; inversion H|intros [H _]; inversion H].
    + intros r H. inversion H.
  - destruct (existsb (Z.eqb (id r)) seen) eqn:Hseen.
    + apply existsb_Zeqb in Hseen.
      destruct (IH seen) as (Hnodup & Hids & Hfirst).
      split; [exact Hnodup|]. split.
      * intros i. rewrite Hids, elem_of_cons. split.
        -- intros [H1 H2]. auto.
        -- intros [[->|H1] H2]; [contradiction|auto].
      * intros r0 Hr0. destruct (Hfirst r0 Hr0) as (l1 & l2 & -> & Hl1).
        exists (r :: l1), l2. split; [reflexivity|].
        simpl. rewrite elem_of_cons. intros [E|Hin]; [|contradiction].
        assert (Hin0 : id r0 ∈ map id (drop_duplicates_from seen
                                         (l1 ++ r0 :: l2)%list)).
        { apply list_elem_of_In, in_map, list_elem_of_In, Hr0. }
        apply Hids in Hin0. destruct Hin0 as [_ Hnew]. apply Hnew.
        rewrite E. exact Hseen.
    + assert (Hnew : id r ∉ seen).
      { intros Hin. apply existsb_Zeqb in Hin. congruence. }
      destruct (IH (id r :: seen)) as (Hnodup & Hids & Hfirst).
      split; [|split].
      * simpl. constructor; [|exact Hnodup].
        rewrite Hids, elem_of_cons. intros [_ H]. apply H. auto.
      * intros i. simpl. rewrite !elem_of_cons, Hids, elem_of_cons.
        split.
        -- intros [->|[H1 H2]]; [auto|]. split; [auto|]. intros H. auto.
        -- intros [[->|H1] H2]; [auto|].
           destruct (decide (i = id r)) as [->|Hne]; [auto|].
           right. split; [exact H1|]. intros [E|H]; auto.
      * intros r0 Hr0. apply elem_of_cons in Hr0.
        destruct Hr0 as [->|Hr0].
        -- exists [], rs. split; [reflexivity|]. simpl. apply not_elem_of_nil.
        -- destruct (Hfirst r0 Hr0) as (l1 & l2 & -> & Hl1).
           exists (r :: l1), l2. split; [reflexivity|].
           simpl. rewrite elem_of_cons. intros [E|Hin]; [|contradiction].
           assert (Hin0 : id r0 ∈ map id (drop_duplicates_from
                                            (id r :: seen)
                                            (l1 ++ r0 :: l2)%list)).
           { apply list_elem_of_In, in_map, list_elem_of_In, Hr0. }
           apply Hids in Hin0. destruct Hin0 as [_ Hnot]. apply Hnot.
           rewrite E. apply elem_of_cons. auto.
Qed.

(** ** Step 3: the dictionary during a pass *)

Section PassProperties.

Variable geolocator_reverse : nat -> float -> float -> Reverse.

Abbreviation get_city' := (get_city_cached geolocator_reverse).
Abbreviation apply_city' := (apply_get_city geolocator_reverse).
Abbreviation key_of := (fun q : float * float => cache_key (fst q) (snd q)).

(** A call either finds its key and changes nothing, or sends one
    lookup and stores the city under a key that was not there. *)
Lemma get_city_cached_step (lat lon : float) (g g' : Geo) (c : string) :
  get_city' lat lon g = (Ok c, g') ->
  (geocode_cache g !! cache_key lat lon = Some c /\ g' = g)
  \/ (geocode_cache g !! cache_key lat lon = None
      /\ geocode_cache g' = <[cache_key lat lon := c]> (geocode_cache g)
      /\ lookups (world g') = (lookups (world g) ++ [(lat, lon)])%list).
Proof.
  intros Hrun.
  destruct (geocode_cache g !! cache_key lat lon) as [v|] eqn:Hcache.
  - rewrite (get_city_cached_hit _ _ _ _ _ Hcache) in Hrun.
    inversion Hrun; subst. left. auto.
  - destruct (get_city_cached_miss geolocator_reverse lat lon g Hcache)
      as (h & Hmiss & Hstore & Hsent & _).
    rewrite Hmiss in Hrun. inversion Hrun; subst. right. auto.
Qed.

(** The pass as a whole: which lookups it sends, what it does to the
    dictionary, and where the cities of the rows come from. *)
Lemma apply_get_city_pass (cols : list string) (rs rs' : list Row)
      (g g' : Geo) :
  apply_city' cols rs g = (Ok rs', g') ->
  exists new,
    lookups (world g') = (lookups (world g) ++ new)%list
    /\ geocode_cache g ⊆ geocode_cache g'
    /\ size (geocode_cache g') = (size (geocode_cache g) + length new)%nat
    /\ NoDup (map key_of new)
    /\ Forall (fun q => geocode_cache g !! key_of q = None
                        /\ is_Some (geocode_cache g' !! key_of q)) new
    /\ (length new <= length rs)%nat
    /\ Forall2 (fun r r' =>
                  r' = set_city (city r') r
                  /\ geocode_cache g' !! cache_key (latitude r) (longitude r)
                     = Some (city r')) rs rs'.
Proof.
  revert rs' g g'. induction rs as [|r rs IH]; intros rs' g g' Hrun.
  - inversion Hrun; subst. exists []. rewrite app_nil_r. simpl.
    repeat split; auto; constructor.
  - simpl in Hrun. unfold bind, column in Hrun.
    destruct (existsb (String.eqb "latitude") cols); [|discriminate].
    destruct (existsb (String.eqb "longitude") cols); [|discriminate].
    simpl in Hrun.
    destruct (get_city' (latitude r) (longitude r) g) as [[c|e] g1] eqn:Hc.
    2: { destruct (get_city_cached_Ok geolocator_reverse
                     (latitude r) (longitude r) g) as (c' & h & Hok).
         congruence. }
    destruct (apply_city' cols rs g1) as [[rs1|e] g2] eqn:Hrest;
      [|discriminate].
    inversion Hrun; subst rs' g2; clear Hrun.
    destruct (IH _ _ _ Hrest)
      as (new & Hsent & Hsub & Hsize & Hnodup & Hfresh & Hlen & Hrows).
    destruct (get_city_cached_step _ _ _ _ _ Hc)
      as [[Hhit ->]|(Hmiss & Hstore & Hsent1)].
    + exists new. repeat split; auto.
      * simpl. lia.
      * constructor; [|exact Hrows]. split; [reflexivity|].
        simpl. eapply lookup_weaken; [exact Hhit|exact Hsub].
    + assert (Hin1 : geocode_cache g1 !! cache_key (latitude r) (longitude r)
                     = Some c).
      { rewrite Hstore. apply lookup_insert_eq. }
      assert (Hsub1 : geocode_cache g ⊆ geocode_cache g1).
      { rewrite Hstore. apply insert_subseteq, Hmiss. }
      exists ((latitude r, longitude r) :: new). repeat split.
      * rewrite Hsent, Hsent1, <- app_assoc. reflexivity.
      * etrans; [exact Hsub1|exact Hsub].
      * rewrite Hsize, Hstore, map_size_insert_None by exact Hmiss.
        simpl. lia.
      * simpl. constructor; [|exact Hnodup].
        intros Hin. apply list_elem_of_In, in_map_iff in Hin.
        destruct Hin as (q & Hq & Hinq).
        rewrite Forall_forall in Hfresh.
        destruct (Hfresh q (proj2 (list_elem_of_In _ _) Hinq)) as [Hnone _].
        simpl in Hq. rewrite Hq in Hnone. congruence.
      * constructor.
        -- split; [exact Hmiss|]. exists c. simpl.
           eapply lookup_weaken; [exact Hin1|exact Hsub].
        -- eapply Forall_impl; [exact Hfresh|]. intros q [Hnone Hsome].
           split; [|exact Hsome].
           eapply lookup_weaken_None; [exact Hnone|exact Hsub1].
      * simpl. lia.
      * constructor; [|exact Hrows]. split; [reflexivity|].
        simpl. eapply lookup_weaken; [exact Hin1|exact Hsub].
Qed.

(** A pass over rows whose keys are all in the dictionary, with the
    cities the dictionary holds, is silent: it returns those cities and
    leaves the state alone. *)
Lemma apply_get_city_again (cols : list string) (rs rs' : list Row)
      (g g' h : Geo) :
  apply_city' cols rs g = (Ok rs', g') ->
  geocode_cache g' ⊆ geocode_cache h ->
  apply_city' cols rs h = (Ok rs', h).
Proof.
  revert rs' g g'. induction rs as [|r rs IH]; intros rs' g g' Hrun Hsub.
  - inversion Hrun; subst. reflexivity.
  - simpl in *. unfold bind, column in *.
    destruct (existsb (String.eqb "latitude") cols); [|discriminate].
    destruct (existsb (String.eqb "longitude") cols); [|discriminate].
    simpl in *.
    destruct (get_city' (latitude r) (longitude r) g) as [[c|e] g1] eqn:Hc;
      [|discriminate].
    destruct (apply_city' cols rs g1) as [[rs1|e] g2] eqn:Hrest;
      [|discriminate].
    inversion Hrun; subst rs' g2; clear Hrun.
    destruct (apply_get_city_pass _ _ _ _ _ Hrest) as (new & _ & Hsub1 & _).
    assert (Hin : geocode_cache h !! cache_key (latitude r) (longitude r)
                  = Some c).
    { eapply lookup_weaken; [|exact Hsub].
      eapply lookup_weaken; [|exact Hsub1].
      destruct (get_city_cached_step _ _ _ _ _ Hc)
        as [[Hhit ->]|(_ & Hstore & _)]; [exact Hhit|].
      rewrite Hstore. apply lookup_insert_eq. }
    rewrite (get_city_cached_hit _ _ _ _ _ Hin).
    rewrite (IH _ _ _ Hrest Hsub). reflexivity.
Qed.

End PassProperties.

(** ** The transform pass, continued *)

Section PassOfTransform.

Variable geolocator_reverse : nat -> float -> float -> Reverse.
Variable to_datetime : list DateCell -> string -> option Z.
Variable tz_aware : list DateCell -> bool.
Variable timestamp_now : Z.

Abbreviation transform' :=
  (transform_stations geolocator_reverse to_datetime tz_aware timestamp_now).

Ltac run_transform' :=
  unfold transform_stations, bind, lift, column, load_cache,
    with_geocode_cache, save_cache, modify, ret, raise.

(** A pass that returns has geocoded the kept rows from the loaded
    dictionary, written the dictionary it ended with, and derived the
    date columns from the geocoded rows. *)
Lemma transform_stations_inv (df df' : DataFrame) (w w' : World) :
  transform' df w = (Ok df', w') ->
  exists rs1 g1,
    apply_get_city geolocator_reverse
      (with_column "operator_clean" (columns df))
      (standardize_operators (drop_duplicates_from [] (rows df)))
      (mkGeo (loaded_cache w) w) = (Ok rs1, g1)
    /\ w' = mkWorld (Some (JsonObject (geocode_cache g1)))
                    (lookups (world g1))
    /\ rows df'
       = map flag_offline
           (map (subtract_days timestamp_now)
                (map (parse_last_updated to_datetime
                        (map last_updated rs1)) rs1))
    /\ columns df'
       = with_column "is_offline"
           (with_column "days_since_update"
              (with_column "city"
                 (with_column "operator_clean" (columns df)))).
Proof.
  run_transform'. unfold loaded_cache.
  destruct (drop_duplicates df) as [df1|e] eqn:Hdd; [|discriminate].
  destruct (drop_duplicates_Ok _ _ Hdd) as [Hcols Hrows].
  rewrite Hcols, Hrows.
  destruct (existsb (String.eqb "operator") (columns df)); [|discriminate].
  destruct (cache_file w) as [[|entries]|]; try discriminate;
    (destruct (apply_get_city geolocator_reverse _ _ _) as [[rs1|e] g1]
       eqn:Hgeo; [|discriminate]);
    simpl;
    (match goal with
     | |- context [if existsb ?f ?l then _ else _] =>
         destruct (existsb f l); [|discriminate]
     end);
    simpl;
    (destruct (tz_aware (map last_updated rs1)); [discriminate|]);
    intros H; inversion H; subst; clear H; simpl;
    exists rs1, g1; auto.
Qed.

Lemma city_flag_offline (today : Z) (texts : list DateCell) (r : Row) :
  let r' := flag_offline
              (subtract_days today
                 (parse_last_updated to_datetime texts r)) in
  city r' = city r /\ latitude r' = latitude r
  /\ longitude r' = longitude r.
Proof. simpl. auto. Qed.

Lemma Forall2_Forall_right {A B} (R : A -> B -> Prop) (P : B -> Prop)
      (l : list A) (l' : list B) :
  (forall x y, R x y -> P y) -> Forall2 R l l' -> Forall P l'.
Proof. intros HRP H. induction H; constructor; eauto. Qed.

(** X1. In the frame a pass returns no identifier occurs twice, the
    identifiers are those of the input, and the row of an identifier
    comes from the first input row that has it: identifier, name,
    coordinates, address and operator are those of that row. *)
Theorem transform_stations_first_of_each_id
        (df df' : DataFrame) (w w' : World) :
  transform' df w = (Ok df', w') ->
  NoDup (map id (rows df'))
  /\ (forall i, i ∈ map id (rows df') <-> i ∈ map id (rows df))
  /\ (forall r', r' ∈ rows df' ->
       exists l1 r l2,
         rows df = (l1 ++ r :: l2)%list
         /\ (id r ∉ map id l1)
         /\ id r' = id r /\ name r' = name r
         /\ latitude r' = latitude r /\ longitude r' = longitude r
         /\ address r' = address r /\ operator r' = operator r).
Proof.
  intros Hrun. apply transform_stations_rows in Hrun. cbv zeta in Hrun.
  set (texts := map last_updated (drop_duplicates_from [] (rows df))) in *.
  clearbody texts.
  assert (Hmap : map id (rows df')
                 = map id (drop_duplicates_from [] (rows df))).
  { induction Hrun as [|r r' rs rs' [c ->] _ IH]; simpl; [reflexivity|].
    f_equal. exact IH. }
  destruct (drop_duplicates_from_spec [] (rows df))
    as (Hnodup & Hids & Hfirst).
  split; [rewrite Hmap; exact Hnodup|]. split.
  - intros i. rewrite Hmap, Hids. split; [intros [H _]; exact H|].
    intros H. split; [exact H|apply not_elem_of_nil].
  - intros r' Hr'.
    assert (Hsrc : exists r, r ∈ drop_duplicates_from [] (rows df)
                             /\ id r' = id r /\ name r' = name r
                             /\ latitude r' = latitude r
                             /\ longitude r' = longitude r
                             /\ address r' = address r
                             /\ operator r' = operator r).
    { clear Hmap Hnodup Hids Hfirst.
      induction Hrun as [|r0 r0' rs rs' [c ->] _ IH]; [inversion Hr'|].
      apply elem_of_cons in Hr'. destruct Hr' as [->|Hr'].
      - exists r0. split; [apply elem_of_cons; auto|]. simpl. auto 10.
      - destruct (IH Hr') as (r & Hr & Hsame).
        exists r. split; [apply elem_of_cons; auto|exact Hsame]. }
    destruct Hsrc as (r & Hr & Hsame).
    destruct (Hfirst r Hr) as (l1 & l2 & Hsplit & Hl1).
    exists l1, r, l2. auto.
Qed.

(** X2. A pass that returns leaves a cache file that parses, and every
    entry of the file it started from is in it, with the city it had:
    entries are added, never removed or changed. *)
Theorem transform_stations_keeps_cache_entries
        (df df' : DataFrame) (w w' : World) :
  transform' df w = (Ok df', w') ->
  exists entries,
    cache_file w' = Some (JsonObject entries)
    /\ forall key city_name,
         loaded_cache w !! key = Some city_name ->
         entries !! key = Some city_name.
Proof.
  intros Hrun.
  destruct (transform_stations_inv _ _ _ _ Hrun)
    as (rs1 & g1 & Hgeo & -> & _).
  destruct (apply_get_city_pass _ _ _ _ _ _ Hgeo) as (new & _ & Hsub & _).
  exists (geocode_cache g1). split; [reflexivity|].
  intros key c Hin. eapply lookup_weaken; [exact Hin|exact Hsub].
Qed.

(** X3. The city of every row a pass returns is the city that the cache
    file the pass leaves behind holds under the key of the row's
    coordinates. *)
Theorem transform_stations_city_is_cached
        (df df' : DataFrame) (w w' : World) :
  transform' df w = (Ok df', w') ->
  Forall (fun r' =>
            loaded_cache w' !! cache_key (latitude r') (longitude r')
            = Some (city r'))
         (rows df').
Proof.
  intros Hrun.
  destruct (transform_stations_inv _ _ _ _ Hrun)
    as (rs1 & g1 & Hgeo & -> & -> & _).
  destruct (apply_get_city_pass _ _ _ _ _ _ Hgeo)
    as (new & _ & _ & _ & _ & _ & _ & Hrows).
  unfold loaded_cache. simpl.
  rewrite !List.map_map. apply List.Forall_map.
  eapply Forall2_Forall_right; [|exact Hrows].
  intros r r1 [Hr1 Hin]. simpl. rewrite Hr1 in *. simpl in *. exact Hin.
Qed.


(** X5. A pass over the same frame, started from what the first pass
    left behind and at the same time, sends no lookup: it returns the
    same frame and leaves the cache file and the list of lookups as
    they are. *)
Theorem transform_stations_again (df df' : DataFrame) (w w' : World) :
  transform' df w = (Ok df', w') ->
  transform' df w' = (Ok df', w').
Proof.
  run_transform'.
  destruct (drop_duplicates df) as [df1|e]; [|discriminate].
  destruct (existsb (String.eqb "operator") (columns df1)); [|discriminate].
  destruct (cache_file w) as [[|entries]|]; try discriminate;
    (destruct (apply_get_city geolocator_reverse _ _ _) as [[rs1|e] g1]
       eqn:Hgeo; [|discriminate]);
    simpl;
    (match goal with
     | |- context [if existsb ?f ?l then _ else _] =>
         destruct (existsb f l) eqn:Hcol; [|discriminate]
     end);
    simpl;
    (destruct (tz_aware (map last_updated rs1)) eqn:Hnaive;
       [discriminate|]);
    intros H; inversion H; subst; clear H; simpl;
    (rewrite (apply_get_city_again _ _ _ _ _ _
                (mkGeo (geocode_cache g1)
                       (mkWorld (Some (JsonObject (geocode_cache g1)))
                                (lookups (world g1))))
                Hgeo) by reflexivity);
    simpl; rewrite ?Hcol; simpl; rewrite ?Hnaive; reflexivity.
Qed.

End PassOfTransform.

(** ** Extraction, continued *)

Lemma offsets_shift (skip : Z) (n : nat) :
  (skip :: map (fun k => skip + 500 + 500 * Z.of_nat k) (seq 0 n))
  = map (fun k => skip + 500 * Z.of_nat k) (seq 0 (S n)).
Proof.
  simpl. f_equal; [lia|].
  rewrite <- seq_shift, List.map_map. apply List.map_ext.
  intros k. lia.
Qed.

Section ExtractMore.

Variable requests_get : nat -> Z -> Response.

(** What a run of the loop that ends has done: [n] requests, the first
    at [skip] and each next 500 further, a second of sleep between two
    requests, and never more pages than the limit. When it ends with the
    stations, every request was answered with status 200 and a body that
    parsed and mapped. *)
Lemma extract_loop_inv (fuel : nat) (max_pages : option nat) (page : nat)
      (skip : Z) (acc : list Row) (net net' : Net)
      (res : Result (list Row)) :
  extract_loop requests_get fuel max_pages page skip acc net
  = Some (res, net') ->
  exists n,
    (1 <= n <= fuel)%nat
    /\ requests net'
       = (requests net
          ++ map (fun k => skip + 500 * Z.of_nat k) (seq 0 n))%list
    /\ slept net' = (slept net + (n - 1))%nat
    /\ (forall m, max_pages = Some m -> (page < m)%nat ->
                  (page + n <= m)%nat)
    /\ (is_ok res = true ->
        forall k, (k < n)%nat ->
          let response :=
            requests_get (length (requests net) + k)%nat
                         (skip + 500 * Z.of_nat k) in
          status_code response = 200
          /\ body response <> NotJson
          /\ forall data, body response = JsonArray data ->
                          is_ok (station_infos data) = true).
Proof.
  revert page skip acc net.
  induction fuel as [|fuel IH]; intros page skip acc net Hrun;
    [discriminate|].
  cbn [extract_loop] in Hrun.
  assert (Hone : forall r,
             Some (r, mkNet (requests net ++ [skip])%list (slept net))
             = Some (res, net') ->
             (is_ok res = true ->
              status_code (requests_get (length (requests net)) skip) = 200
              /\ body (requests_get (length (requests net)) skip) <> NotJson
              /\ forall data,
                   body (requests_get (length (requests net)) skip)
                   = JsonArray data ->
                   is_ok (station_infos data) = true) ->
             exists n,
               (1 <= n <= S fuel)%nat
               /\ requests net'
                  = (requests net
                     ++ map (fun k => skip + 500 * Z.of_nat k)
                            (seq 0 n))%list
               /\ slept net' = (slept net + (n - 1))%nat
               /\ (forall m, max_pages = Some m -> (page < m)%nat ->
                             (page + n <= m)%nat)
               /\ (is_ok res = true ->
                   forall k, (k < n)%nat ->
                     let response :=
                       requests_get (length (requests net) + k)%nat
                                    (skip + 500 * Z.of_nat k) in
                     status_code response = 200
                     /\ body response <> NotJson
                     /\ forall data, body response = JsonArray data ->
                                     is_ok (station_infos data) = true)).
  { intros r E Hok. inversion E; subst. exists 1%nat. simpl.
    split; [lia|]. split; [do 2 f_equal; lia|]. split; [lia|].
    split; [intros; lia|].
    intros Hres k Hk. assert (k = 0%nat) as -> by lia.
    replace (length (requests net) + 0)%nat with (length (requests net))
      by lia.
    replace (skip + 500 * Z.of_nat 0) with skip by lia.
    apply Hok, Hres. }
  destruct (status_code (requests_get (length (requests net)) skip) =? 200)
    eqn:Hstatus; simpl in Hrun.
  2: { apply (Hone _ Hrun). inversion Hrun; subst. discriminate. }
  apply Z.eqb_eq in Hstatus.
  destruct (body (requests_get (length (requests net)) skip))
    as [| |[|station data]] eqn:Hbody.
  - apply (Hone _ Hrun). intros _. repeat split; auto; try discriminate.
  - apply (Hone _ Hrun). inversion Hrun; subst. discriminate.
  - apply (Hone _ Hrun). intros _. repeat split; auto; try discriminate.
    intros data E. inversion E; subst. reflexivity.
  - destruct (station_infos (station :: data)) as [infos|e] eqn:Hmap.
    2: { apply (Hone _ Hrun). inversion Hrun; subst. discriminate. }
    assert (Hhere : status_code (requests_get (length (requests net)) skip)
                    = 200
                    /\ body (requests_get (length (requests net)) skip)
                       <> NotJson
                    /\ forall data0,
                         body (requests_get (length (requests net)) skip)
                         = JsonArray data0 ->
                         is_ok (station_infos data0) = true).
    { rewrite Hbody. repeat split; auto; try discriminate.
      intros data0 E. inversion E; subst. rewrite Hmap. reflexivity. }
    destruct (max_pages_reached max_pages (S page)) eqn:Hcap.
    + apply (Hone _ Hrun). intros _. rewrite <- Hbody. exact Hhere.
    + apply IH in Hrun.
      destruct Hrun as (n & Hn & Hreq & Hslept & Hmax & Hok).
      cbn [requests slept] in *.
      exists (S n). split; [lia|]. split; [|split; [lia|split]].
      * rewrite Hreq, <- app_assoc. simpl app. f_equal.
        apply offsets_shift.
      * intros m Hm Hpage. subst max_pages.
        assert (S page < m)%nat.
        { unfold max_pages_reached in Hcap.
          destruct m as [|m]; [lia|]. apply Nat.leb_gt in Hcap. lia. }
        specialize (Hmax m eq_refl). lia.
      * intros Hres k Hk. destruct k as [|k].
        -- replace (length (requests net) + 0)%nat
             with (length (requests net)) by lia.
           replace (skip + 500 * Z.of_nat 0) with skip by lia.
           exact Hhere.
        -- specialize (Hok Hres k ltac:(lia)). cbv zeta in Hok.
           rewrite length_app in Hok. simpl length in Hok.
           replace (length (requests net) + S k)%nat
             with (length (requests net) + 1 + k)%nat by lia.
           replace (skip + 500 * Z.of_nat (S k))
             with (skip + 500 + 500 * Z.of_nat k) by lia.
           exact Hok.
Qed.

Abbreviation extract := (extract_charging_stations requests_get).

Lemma extract_charging_stations_loop (fuel : nat) (max_pages : option nat)
      (net net' : Net) (res : Result DataFrame) :
  extract fuel max_pages net = Some (res, net') ->
  exists res',
    extract_loop requests_get fuel max_pages 0 0 [] net = Some (res', net')
    /\ is_ok res' = is_ok res.
Proof.
  unfold extract_charging_stations.
  destruct (extract_loop requests_get fuel max_pages 0 0 [] net)
    as [[[l|e] net1]|]; intros H; inversion H; subst; eauto.
Qed.

(** X6. However an extraction ends, the requests it has sent ask for the
    offsets 0, 500, 1000, ... in this order, without gap or repetition,
    and it has slept one second between every two of them. *)
Theorem extract_offsets_and_sleeps (fuel : nat) (max_pages : option nat)
        (net net' : Net) (res : Result DataFrame) :
  extract fuel max_pages net = Some (res, net') ->
  exists n,
    (1 <= n)%nat
    /\ requests net'
       = (requests net ++ map (fun k => 500 * Z.of_nat k) (seq 0 n))%list
    /\ slept net' = (slept net + (n - 1))%nat.
Proof.
  intros Hrun.
  destruct (extract_charging_stations_loop _ _ _ _ _ Hrun)
    as (res' & Hloop & _).
  destruct (extract_loop_inv _ _ _ _ _ _ _ _ Hloop)
    as (n & Hn & Hreq & Hslept & _).
  exists n. split; [lia|]. split; [exact Hreq|exact Hslept].
Qed.

(** X7. With a page limit [m] other than zero, an extraction sends at
    most [m] requests, however it ends. *)
Theorem extract_max_pages (fuel m : nat) (net net' : Net)
        (res : Result DataFrame) :
  (0 < m)%nat ->
  extract fuel (Some m) net = Some (res, net') ->
  (length (requests net') <= length (requests net) + m)%nat.
Proof.
  intros Hm Hrun.
  destruct (extract_charging_stations_loop _ _ _ _ _ Hrun)
    as (res' & Hloop & _).
  destruct (extract_loop_inv _ _ _ _ _ _ _ _ Hloop)
    as (n & Hn & Hreq & _ & Hmax & _).
  rewrite Hreq, length_app, length_map, length_seq.
  specialize (Hmax m eq_refl Hm). lia.
Qed.


Abbreviation always_answers := (listing_always_answers requests_get).

Lemma extract_loop_endless (fuel : nat) (max_pages : option nat)
      (page : nat) (skip : Z) (acc : list Row) (net : Net) :
  always_answers ->
  max_pages = None \/ max_pages = Some 0%nat ->
  extract_loop requests_get fuel max_pages page skip acc net = None.
Proof.
  intros Hlisting Hmax. revert page skip acc net.
  induction fuel as [|fuel IH]; intros page skip acc net; [reflexivity|].
  cbn [extract_loop].
  destruct (Hlisting (length (requests net)) skip)
    as (station & data & infos & -> & Hmap).
  cbn [status_code body]. change (200 =? 200) with true. cbn [negb].
  rewrite Hmap.
  assert (max_pages_reached max_pages (S page) = false) as ->
    by (destruct Hmax as [->| ->]; reflexivity).
  apply IH.
Qed.

(** X9. Without a page limit (none, or zero), an extraction from a
    listing that answers every request with stations does not end: no
    bound on the number of iterations lets it return. *)
Theorem extract_never_returns (fuel : nat) (max_pages : option nat)
        (net : Net) :
  always_answers ->
  max_pages = None \/ max_pages = Some 0%nat ->
  extract fuel max_pages net = None.
Proof.
  intros Hlisting Hmax. unfold extract_charging_stations.
  rewrite extract_loop_endless by assumption. reflexivity.
Qed.

Lemma extract_loop_limit (fuel m page : nat) (skip : Z) (acc : list Row)
      (net : Net) :
  always_answers ->
  (page < m)%nat -> (m - page <= fuel)%nat ->
  exists rs net',
    extract_loop requests_get fuel (Some m) page skip acc net
    = Some (Ok rs, net')
    /\ length (requests net') = (length (requests net) + (m - page))%nat
    /\ (length acc + (m - page) <= length rs)%nat.
Proof.
  intros Hlisting. revert page skip acc net.
  induction fuel as [|fuel IH]; intros page skip acc net Hpage Hfuel;
    [lia|].
  cbn [extract_loop].
  destruct (Hlisting (length (requests net)) skip)
    as (station & data & infos & -> & Hmap).
  cbn [status_code body]. change (200 =? 200) with true. cbn [negb].
  rewrite Hmap.
  assert (Hinfos : (1 <= length infos)%nat).
  { rewrite (station_infos_length _ _ Hmap). simpl. lia. }
  destruct (max_pages_reached (Some m) (S page)) eqn:Hcap.
  - assert (m = S page).
    { unfold max_pages_reached in Hcap. destruct m as [|m]; [lia|].
      apply Nat.leb_le in Hcap. lia. }
    subst m. eexists _, _. split; [reflexivity|]. cbn [requests].
    rewrite !length_app. simpl. lia.
  - assert (S page < m)%nat.
    { unfold max_pages_reached in Hcap. destruct m as [|m]; [lia|].
      apply Nat.leb_gt in Hcap. lia. }
    destruct (IH (S page) (skip + 500) (acc ++ infos)%list
                 (mkNet (requests net ++ [skip])%list (S (slept net))))
      as (rs & net' & Hrun & Hreq & Hlen); [lia|lia|].
    exists rs, net'. split; [exact Hrun|]. cbn [requests] in Hreq.
    rewrite length_app in Hreq, Hlen. simpl in Hreq. lia.
Qed.

(** X10. With a page limit [m] other than zero, an extraction from a
    listing that answers every request with stations returns once it
    has room for [m] iterations: it has sent exactly [m] requests, and
    its frame holds at least one row for each of them. *)
Theorem extract_stops_at_max_pages (fuel m : nat) (net : Net) :
  always_answers ->
  (0 < m)%nat -> (m <= fuel)%nat ->
  exists df net',
    extract fuel (Some m) net = Some (Ok df, net')
    /\ length (requests net') = (length (requests net) + m)%nat
    /\ (m <= length (rows df))%nat.
Proof.
  intros Hlisting Hm Hfuel.
  destruct (extract_loop_limit fuel m 0 0 [] net Hlisting Hm)
    as (rs & net' & Hrun & Hreq & Hlen); [lia|].
  unfold extract_charging_stations. rewrite Hrun.
  eexists _, _. split; [reflexivity|].
  split; [rewrite Hreq; lia|].
  simpl in Hlen. destruct rs; simpl in *; lia.
Qed.

End ExtractMore.

(** ** Loading and reading back *)

(** [read_from_db] lists the rows of the table as the connection sees
    it, each once. *)
Lemma elem_of_read_from_db (conn : Connection) (row : list SqlValue) :
  row ∈ read_from_db conn <-> exists k, working conn !! k = Some row.
Proof.
  unfold read_from_db. rewrite list_elem_of_In, in_map_iff. split.
  - intros ([k row'] & E & Hin). simpl in E. subst row'. exists k.
    apply list_elem_of_In in Hin. rewrite merge_sort_Permutation in Hin.
    apply elem_of_map_to_list in Hin. exact Hin.
  - intros [k Hk]. exists (k, row). split; [reflexivity|].
    apply list_elem_of_In. rewrite merge_sort_Permutation.
    apply elem_of_map_to_list, Hk.
Qed.

Lemma length_read_from_db (conn : Connection) :
  length (read_from_db conn) = size (working conn).
Proof.
  unfold read_from_db.
  rewrite length_map, (Permutation_length (merge_sort_Permutation _ _)).
  apply length_map_to_list.
Qed.

Lemma executemany_insert_size (cols : list string) (rs : list Row)
      (t : gmap Z (list SqlValue)) :
  fst (executemany_insert cols rs t) = Ok tt ->
  size (snd (executemany_insert cols rs t)) = (size t + length rs)%nat.
Proof.
  revert t. induction rs as [|r rs IH]; intros t H; simpl in *; [lia|].
  destruct (t !! id r) eqn:Ht; [discriminate|].
  rewrite (IH _ H), map_size_insert_None by exact Ht. lia.
Qed.


Section LoadMore.

Variable SQLITE_MAX_VARIABLE_NUMBER : nat.
Variable to_sql_ends_transaction : bool.

Abbreviation load' :=
  (load_to_db SQLITE_MAX_VARIABLE_NUMBER to_sql_ends_transaction).

(** What a load that returns has done to the connection. *)
Lemma load_to_db_Ok (df : DataFrame) (conn conn' : Connection) :
  load' df conn = (Ok tt, conn') ->
  let deleted := foldr delete (working conn) (map id (rows df)) in
  fst (executemany_insert (columns df) (rows df) deleted) = Ok tt
  /\ working conn'
     = snd (executemany_insert (columns df) (rows df) deleted)
  /\ committed conn' = working conn'.
Proof.
  unfold load_to_db.
  destruct (has_column "id" df); simpl; [|discriminate].
  destruct (SQLITE_MAX_VARIABLE_NUMBER <? length (map id (rows df)))%nat;
    simpl; [discriminate|].
  unfold to_sql, delete_where_id_in. simpl.
  destruct (rows df) as [|r rs] eqn:Hrows.
  - simpl. intros H. inversion H; subst.
    destruct to_sql_ends_transaction; simpl; auto.
  - rewrite <- Hrows.
    destruct (unknown_column (columns df)); simpl.
    + destruct to_sql_ends_transaction; discriminate.
    + destruct (executemany_insert (columns df) (rows df) _)
        as [[[]|e] t2]; simpl.
      * intros H. inversion H; subst.
        destruct to_sql_ends_transaction; simpl; auto.
      * destruct to_sql_ends_transaction; discriminate.
Qed.


(** X12. After a load that returned, [read_from_db] gives back every row
    of the batch, as [to_sql] stored it, and besides them exactly the
    rows it would have given before with the identifiers of the batch
    deleted: rows are replaced by identifier and no other row is
    touched. *)
Theorem load_to_db_then_read (df : DataFrame) (conn conn' : Connection) :
  load' df conn = (Ok tt, conn') ->
  let others := read_from_db (delete_where_id_in (map id (rows df)) conn) in
  Forall (fun r => sql_row (columns df) r ∈ read_from_db conn') (rows df)
  /\ (forall row, row ∈ read_from_db conn' ->
                  (exists r, r ∈ rows df /\ row = sql_row (columns df) r)
                  \/ row ∈ others)
  /\ (forall row, row ∈ others -> row ∈ read_from_db conn')
  /\ length (read_from_db conn')
     = (length (rows df) + length others)%nat.
Proof.
  intros Hload others.
  destruct (load_to_db_Ok _ _ _ Hload) as (Hres & Hworking & _).
  cbv zeta in Hres, Hworking.
  set (deleted := foldr delete (working conn) (map id (rows df))) in *.
  destruct (executemany_insert_Ok _ _ _ Hres) as (_ & _ & Hstored).
  rewrite <- Hworking in Hstored.
  split; [|split; [|split]].
  - eapply Forall_impl; [exact Hstored|]. intros r Hr. simpl in Hr.
    apply elem_of_read_from_db. exists (id r). exact Hr.
  - intros row Hrow. apply elem_of_read_from_db in Hrow.
    destruct Hrow as [k Hk].
    destruct (decide (k ∈ map id (rows df))) as [Hin|Hnotin].
    + left. apply list_elem_of_In, in_map_iff in Hin.
      destruct Hin as (r & <- & Hr). apply list_elem_of_In in Hr.
      exists r. split; [exact Hr|].
      rewrite Forall_forall in Hstored. specialize (Hstored r Hr).
      congruence.
    + right. apply elem_of_read_from_db. exists k. simpl. fold deleted.
      rewrite Hworking, executemany_insert_other in Hk; [exact Hk|].
      apply Forall_forall. intros r Hr E. apply Hnotin. subst k.
      apply list_elem_of_In, in_map, list_elem_of_In, Hr.
  - intros row Hrow. apply elem_of_read_from_db in Hrow.
    destruct Hrow as [k Hk]. simpl in Hk. fold deleted in Hk.
    apply elem_of_read_from_db. exists k.
    rewrite Hworking, executemany_insert_other; [exact Hk|].
    apply Forall_forall. intros r Hr E. subst k. unfold deleted in Hk.
    rewrite lookup_foldr_delete in Hk; [discriminate|].
    apply list_elem_of_In, in_map, list_elem_of_In, Hr.
  - unfold others. rewrite !length_read_from_db, Hworking.
    rewrite (executemany_insert_size _ _ _ Hres). simpl. fold deleted. lia.
Qed.

End LoadMore.

(** ** The pipeline script *)

Lemma extract_charging_stations_frame
      (requests_get : nat -> Z -> Response) (fuel : nat)
      (max_pages : option nat) (net net' : Net) (df : DataFrame) :
  extract_charging_stations requests_get fuel max_pages net
  = Some (Ok df, net') ->
  exists all_stations, df = pd_DataFrame all_stations.
Proof.
  unfold extract_charging_stations.
  destruct (extract_loop requests_get fuel max_pages 0 0 [] net)
    as [[[l|e] net1]|]; intros H; inversion H; subst; eauto.
Qed.

Section PipelineProperties.

Variable requests_get : nat -> Z -> Response.
Variable geolocator_reverse : nat -> float -> float -> Reverse.
Variable to_datetime : list DateCell -> string -> option Z.
Variable tz_aware : list DateCell -> bool.
Variable timestamp_now : Z.
Variable SQLITE_MAX_VARIABLE_NUMBER : nat.
Variable to_sql_ends_transaction : bool.

Abbreviation main :=
  (etl_pipeline_main requests_get geolocator_reverse to_datetime tz_aware
                     timestamp_now SQLITE_MAX_VARIABLE_NUMBER
                     to_sql_ends_transaction).

(** The frame a pass makes of extracted stations has rows, an [id]
    column, and the column [operator], which the table does not have. *)
Lemma transform_of_extracted (r : Row) (l : list Row) (df' : DataFrame)
      (w w' : World) :
  transform_stations geolocator_reverse to_datetime tz_aware timestamp_now
                     (pd_DataFrame (r :: l)) w = (Ok df', w') ->
  rows df' <> []
  /\ has_column "id" df' = true
  /\ unknown_column (columns df') = Some "operator".
Proof.
  intros Hrun.
  destruct (transform_stations_inv _ _ _ _ _ _ _ _ Hrun)
    as (rs1 & g1 & _ & _ & _ & Hcols).
  apply transform_stations_rows in Hrun. cbv zeta in Hrun.
  split; [|split].
  - simpl in Hrun. inversion Hrun; subst. discriminate.
  - unfold has_column. rewrite Hcols. reflexivity.
  - rewrite Hcols. reflexivity.
Qed.

(** X13. Started on a database that does not exist or whose table is
    the one [init_db] creates, the pipeline script never ends normally
    and never changes a row of the table: without stations the
    transform raises, and with stations the frame it returns has the
    column [operator], which the INSERT of the load is refused for. *)
Theorem etl_pipeline_main_never_loads
        (fuel : nat) (net net' : Net) (w w' : World)
        (db db' : option (gmap Z (list SqlValue))) (res : Result unit) :
  main fuel net w db = Some (res, (net', w', db')) ->
  is_ok res = false /\ default ∅ db' = default ∅ db.
Proof.
  unfold etl_pipeline_main.
  destruct (extract_charging_stations requests_get fuel None net)
    as [[[df|e] net1]|] eqn:Hextract; [| |discriminate].
  2: { intros H. inversion H; subst. auto. }
  destruct (extract_charging_stations_frame _ _ _ _ _ _ Hextract)
    as [[|r l] ->].
  { change (transform_stations geolocator_reverse to_datetime tz_aware
              timestamp_now (pd_DataFrame []) w)
      with (@Raise DataFrame (KeyError "operator"), w).
    intros H. inversion H; subst. auto. }
  destruct (transform_stations geolocator_reverse to_datetime tz_aware
              timestamp_now (pd_DataFrame (r :: l)) w)
    as [[df'|e] w1] eqn:Hrun.
  2: { intros H. inversion H; subst. auto. }
  destruct (transform_of_extracted _ _ _ _ _ Hrun)
    as (Hrows & Hid & Hcol).
  unfold load_to_db, to_sql, delete_where_id_in. rewrite Hid. simpl.
  destruct (SQLITE_MAX_VARIABLE_NUMBER <? length (map id (rows df')))%nat.
  { intros H. inversion H; subst. auto. }
  destruct (rows df') as [|r1 rs1]; [contradiction|].
  rewrite Hcol. simpl.
  intros H. inversion H; subst. split; [reflexivity|].
  destruct to_sql_ends_transaction; reflexivity.
Qed.

End PipelineProperties.

(** ** Statistics *)

Lemma count_in_group_sum (v : SqlValue) (groups : list (SqlValue * nat)) :
  list_sum (map snd (count_in_group v groups))
  = S (list_sum (map snd groups)).
Proof.
  induction groups as [|[k n] groups IH]; simpl; [reflexivity|].
  destruct (sql_same_group k v); simpl; [reflexivity|].
  rewrite IH. lia.
Qed.

(** The counts of the groups add up to the number of values. *)
Lemma group_by_count_sum (values : list SqlValue) :
  list_sum (map snd (group_by_count values)) = length values.
Proof.
  unfold group_by_count.
  assert (H : forall groups,
             list_sum (map snd (fold_left
                                  (fun groups v => count_in_group v groups)
                                  values groups))
             = (list_sum (map snd groups) + length values)%nat).
  { induction values as [|v values IH]; intros groups; simpl; [lia|].
    rewrite IH, count_in_group_sum. lia. }
  rewrite H. reflexivity.
Qed.

Lemma count_in_group_keys (P : SqlValue -> Prop) (v : SqlValue)
      (groups : list (SqlValue * nat)) :
  P v ->
  Forall (fun kn => P (fst kn) /\ (1 <= snd kn)%nat) groups ->
  Forall (fun kn => P (fst kn) /\ (1 <= snd kn)%nat)
         (count_in_group v groups).
Proof.
  intros Hv H. induction H as [|[k n] groups [Hk Hn] Htail IH]; simpl.
  - constructor; [|constructor]. simpl. split; [exact Hv|lia].
  - simpl in Hk, Hn. destruct (sql_same_group k v); constructor; simpl.
    + split; [exact Hk|lia].
    + exact Htail.
    + split; [exact Hk|exact Hn].
    + exact IH.
Qed.

(** Every group is the group of one of the values, and counts at least
    one. *)
Lemma group_by_count_keys (P : SqlValue -> Prop) (values : list SqlValue) :
  Forall P values ->
  Forall (fun kn => P (fst kn) /\ (1 <= snd kn)%nat)
         (group_by_count values).
Proof.
  unfold group_by_count. intros Hvalues.
  assert (H : forall groups,
             Forall (fun kn => P (fst kn) /\ (1 <= snd kn)%nat) groups ->
             Forall (fun kn => P (fst kn) /\ (1 <= snd kn)%nat)
                    (fold_left (fun groups v => count_in_group v groups)
                               values groups)).
  { induction Hvalues as [|v values Hv _ IH]; intros groups Hg; simpl;
      [exact Hg|].
    apply IH, count_in_group_keys; assumption. }
  apply H. constructor.
Qed.

Lemma count_le_list_sum (kn : SqlValue * nat)
      (groups : list (SqlValue * nat)) :
  In kn groups -> (snd kn <= list_sum (map snd groups))%nat.
Proof.
  induction groups as [|g groups IH]; simpl; [contradiction|].
  intros [->|Hin]; [lia|]. specialize (IH Hin). lia.
Qed.

Lemma filter_disjoint_length {A} (p q : A -> bool) (l : list A) :
  (forall x, p x = true -> q x = false) ->
  (length (List.filter p l) + length (List.filter q l) <= length l)%nat.
Proof.
  intros Hpq. induction l as [|x l IH]; simpl; [lia|].
  destruct (p x) eqn:Hp.
  - rewrite (Hpq x Hp). simpl. lia.
  - destruct (q x); simpl; lia.
Qed.

Lemma filter_cover_length {A} (p q : A -> bool) (l : list A) :
  (forall x, p x = true -> q x = false) ->
  Forall (fun x => p x || q x = true) l ->
  (length (List.filter p l) + length (List.filter q l))%nat = length l.
Proof.
  intros Hpq H. induction H as [|x l Hx _ IH]; simpl; [reflexivity|].
  destruct (p x) eqn:Hp.
  - rewrite (Hpq x Hp). simpl. lia.
  - simpl in Hx. rewrite Hx. simpl. lia.
Qed.

Lemma sql_eq_integer_1_0 (v : SqlValue) :
  sql_eq_integer v 1 = true -> sql_eq_integer v 0 = false.
Proof.
  destruct v as [|z|x|s|ns]; simpl; try discriminate.
  - intros H. apply Z.eqb_eq in H. subst z. reflexivity.
  - destruct (float_integer x) as [z|]; [|discriminate].
    intros H. apply Z.eqb_eq in H. subst z. reflexivity.
Qed.

Section StatisticsProperties.

Variable order_by_count_desc :
  list (SqlValue * nat) -> list (SqlValue * nat).

Abbreviation stats := (get_stats order_by_count_desc).

(** X14. In the statistics of a database, the counts per operator add
    up to the total, whatever the operators are, also NULL; the offline
    and the online stations together are never more than the total, and
    they are the total when [is_offline] is 0 or 1 in every row. *)
Theorem get_stats_counts (conn : Connection) :
  total (stats conn) = length (read_from_db conn)
  /\ list_sum (map snd (by_operator (stats conn))) = total (stats conn)
  /\ (offline (stats conn) + online (stats conn) <= total (stats conn))%nat
  /\ (Forall (fun row =>
                sql_eq_integer (field "is_offline" row) 1
                || sql_eq_integer (field "is_offline" row) 0 = true)
             (read_from_db conn) ->
      (offline (stats conn) + online (stats conn))%nat
      = total (stats conn)).
Proof.
  unfold get_stats. cbn [total offline online by_operator].
  split; [reflexivity|]. split; [|split].
  - rewrite group_by_count_sum. apply length_map.
  - apply filter_disjoint_length. intros row. apply sql_eq_integer_1_0.
  - apply filter_cover_length. intros row. apply sql_eq_integer_1_0.
Qed.

(** X15. When the sorter of ORDER BY hands back the groups it is given,
    the statistics name at most ten cities; none of them is NULL or
    ["Unknown"], each is the city of a row of the table, and its count
    is at least one and at most the total. *)
Theorem get_stats_by_city (conn : Connection) :
  (forall groups, order_by_count_desc groups ≡ₚ groups) ->
  (length (by_city (stats conn)) <= 10)%nat
  /\ Forall (fun kn =>
               fst kn <> SqlNull
               /\ fst kn <> SqlText "Unknown"
               /\ (exists row, row ∈ read_from_db conn
                               /\ field "city" row = fst kn)
               /\ (1 <= snd kn <= total (stats conn))%nat)
            (by_city (stats conn)).
Proof.
  intros Hperm. unfold get_stats. cbn [total by_city].
  set (table := read_from_db conn).
  set (named := List.filter
                  (fun row => sql_ne_text (field "city" row) "Unknown")
                  table).
  set (groups := group_by_count (map (field "city") named)).
  split; [apply firstn_le_length|].
  assert (Hkeys :
            Forall (fun kn =>
                      (fst kn <> SqlNull
                       /\ fst kn <> SqlText "Unknown"
                       /\ exists row, row ∈ table
                                      /\ field "city" row = fst kn)
                      /\ (1 <= snd kn)%nat) groups).
  { apply (group_by_count_keys
             (fun k => k <> SqlNull
                       /\ k <> SqlText "Unknown"
                       /\ exists row, row ∈ table /\ field "city" row = k)).
    apply List.Forall_map, List.Forall_forall.
    intros row Hrow. apply filter_In in Hrow. destruct Hrow as [Hin Hne].
    split; [|split].
    - intros E. rewrite E in Hne. discriminate.
    - intros E. rewrite E in Hne. discriminate.
    - exists row. split; [apply list_elem_of_In, Hin|reflexivity]. }
  assert (Hsum : (list_sum (map snd groups) <= length table)%nat).
  { unfold groups. rewrite group_by_count_sum, length_map.
    unfold named. clear. induction table as [|row t IH]; simpl; [lia|].
    destruct (sql_ne_text (field "city" row) "Unknown"); simpl; lia. }
  apply List.Forall_forall. intros kn Hin.
  assert (Hin' : In kn groups).
  { apply list_elem_of_In. rewrite <- (Hperm groups).
    eapply subseteq_take, list_elem_of_In, Hin. }
  rewrite List.Forall_forall in Hkeys.
  destruct (Hkeys kn Hin') as ((Hnull & Hunknown & Hrow) & Hone).
  repeat split; auto.
  pose proof (count_le_list_sum kn groups Hin'). lia.
Qed.

End StatisticsProperties.

(** ** Loading, then loading or listing *)

Lemma field_is_offline (cols : list string) (r : Row) :
  existsb (String.eqb "is_offline") cols = true ->
  field "is_offline" (sql_row cols r)
  = SqlInteger (if is_offline r then 1 else 0).
Proof.
  intros Hcol. unfold field, sql_row.
  change (column_index "is_offline" stations_columns) with 7%nat.
  unfold stations_columns. cbn [map nth]. rewrite Hcol. reflexivity.
Qed.

Section LoadThen.

Variable SQLITE_MAX_VARIABLE_NUMBER : nat.
Variable to_sql_ends_transaction : bool.

Abbreviation load'' :=
  (load_to_db SQLITE_MAX_VARIABLE_NUMBER to_sql_ends_transaction).

(** What a load that returned has committed under each identifier. *)
Lemma load_to_db_lookup (df : DataFrame) (conn conn' : Connection) :
  load'' df conn = (Ok tt, conn') ->
  Forall (fun r => committed conn' !! id r = Some (sql_row (columns df) r))
         (rows df)
  /\ (forall k, k ∉ map id (rows df) ->
                committed conn' !! k = working conn !! k)
  /\ working conn' = committed conn'.
Proof.
  intros Hload.
  destruct (load_to_db_Ok _ _ _ _ _ Hload) as (Hres & Hworking & Hcommit).
  cbv zeta in Hres, Hworking.
  destruct (executemany_insert_Ok _ _ _ Hres) as (_ & _ & Hstored).
  rewrite Hcommit, Hworking. split; [exact Hstored|]. split; [|reflexivity].
  intros k Hk. rewrite executemany_insert_other.
  - apply lookup_foldr_delete_not_elem_of, Hk.
  - apply Forall_forall. intros r Hr E. apply Hk. subst k.
    apply list_elem_of_In, in_map, list_elem_of_In, Hr.
Qed.

(** X16. After two loads that returned, one after the other on the same
    connection, the database holds every row of the second batch, and of
    the first batch every row whose identifier is not in the second: a
    later batch replaces by identifier and leaves the rest. *)
Theorem load_to_db_twice (df1 df2 : DataFrame)
        (conn conn1 conn2 : Connection) :
  load'' df1 conn = (Ok tt, conn1) ->
  load'' df2 conn1 = (Ok tt, conn2) ->
  Forall (fun r => committed conn2 !! id r
                   = Some (sql_row (columns df2) r)) (rows df2)
  /\ Forall (fun r => id r ∉ map id (rows df2) ->
                      committed conn2 !! id r
                      = Some (sql_row (columns df1) r)) (rows df1).
Proof.
  intros Hload1 Hload2.
  destruct (load_to_db_lookup _ _ _ Hload1) as (Hstored1 & _ & Hsame1).
  destruct (load_to_db_lookup _ _ _ Hload2) as (Hstored2 & Hother2 & _).
  split; [exact Hstored2|].
  eapply Forall_impl; [exact Hstored1|]. intros r Hr Hnotin. simpl in Hr.
  rewrite (Hother2 _ Hnotin), Hsame1. exact Hr.
Qed.

(** X17. After a load of a frame that has the [is_offline] column,
    [list_offline_stations] lists the stored row of a station of the
    batch exactly when the station is flagged offline, and every row it
    lists is offline in the table. *)
Theorem load_to_db_then_list_offline (df : DataFrame)
        (conn conn' : Connection) :
  load'' df conn = (Ok tt, conn') ->
  has_column "is_offline" df = true ->
  exists listed,
    list_offline_stations (Some (committed conn')) = Ok listed
    /\ Forall (fun r => sql_row (columns df) r ∈ listed
                        <-> is_offline r = true) (rows df)
    /\ Forall (fun row => sql_eq_integer (field "is_offline" row) 1 = true)
              listed.
Proof.
  intros Hload Hcol. unfold has_column in Hcol.
  destruct (load_to_db_lookup _ _ _ Hload) as (Hstored & _ & _).
  eexists. split; [reflexivity|]. split.
  - eapply Forall_impl; [exact Hstored|]. intros r Hr. simpl in Hr.
    rewrite list_elem_of_In, filter_In, <- list_elem_of_In.
    rewrite (field_is_offline _ _ Hcol). split.
    + intros [_ H]. destruct (is_offline r); [reflexivity|discriminate].
    + intros ->. split; [|reflexivity].
      apply elem_of_read_from_db. exists (id r). exact Hr.
  - apply List.Forall_forall. intros row Hrow.
    apply filter_In in Hrow. apply Hrow.
Qed.

End LoadThen.

(** ** More runs on the sample data *)

Lemma transform_stations_first_of_each_id_sample :
  exists df' w',
    sample_transform (pd_DataFrame sample_batch) (mkWorld None [])
    = (Ok df', w')
    /\ map id (rows df') = [1; 2]
    /\ map operator (rows df')
       = [Some "Tesla BP Supercharger"; Some "Unknown Co"]
    /\ (NoDup (map id (rows df'))
        /\ (forall i, i ∈ map id (rows df')
                      <-> i ∈ map id (rows (pd_DataFrame sample_batch)))
        /\ (forall r', r' ∈ rows df' ->
             exists l1 r l2,
               rows (pd_DataFrame sample_batch) = (l1 ++ r :: l2)%list
               /\ (id r ∉ map id l1)
               /\ id r' = id r /\ name r' = name r
               /\ latitude r' = latitude r /\ longitude r' = longitude r
               /\ address r' = address r /\ operator r' = operator r)).
Proof.
  eexists _, _. split; [vm_compute; reflexivity|].
  split; [reflexivity|]. split; [reflexivity|].
  eapply (transform_stations_first_of_each_id
            sample_reverse sample_to_datetime sample_tz_aware sample_now
            (pd_DataFrame sample_batch) _ (mkWorld None [])).
  vm_compute. reflexivity.
Defined.

Lemma transform_stations_keeps_cache_entries_sample :
  exists df' w',
    sample_transform (pd_DataFrame sample_batch) cached_world = (Ok df', w')
    /\ exists entries,
         cache_file w' = Some (JsonObject entries)
         /\ forall key city_name,
              loaded_cache cached_world !! key = Some city_name ->
              entries !! key = Some city_name.
Proof.
  eexists _, _. split; [vm_compute; reflexivity|].
  eapply (transform_stations_keeps_cache_entries
           sample_reverse sample_to_datetime sample_tz_aware sample_now
           (pd_DataFrame sample_batch) _ cached_world).
  vm_compute. reflexivity.
Defined.

Lemma transform_stations_city_is_cached_sample :
  exists df' w',
    sample_transform (pd_DataFrame sample_batch) cached_world = (Ok df', w')
    /\ map city (rows df') = ["Pudong"; "Shanghai"]
    /\ Forall (fun r' =>
                 loaded_cache w' !! cache_key (latitude r') (longitude r')
                 = Some (city r'))
              (rows df').
Proof.
  eexists _, _. split; [vm_compute; reflexivity|].
  split; [reflexivity|].
  eapply (transform_stations_city_is_cached
           sample_reverse sample_to_datetime sample_tz_aware sample_now
           (pd_DataFrame sample_batch) _ cached_world).
  vm_compute. reflexivity.
Defined.


Lemma transform_stations_again_sample :
  exists df' w',
    sample_transform (pd_DataFrame sample_batch) (mkWorld None [])
    = (Ok df', w')
    /\ sample_transform (pd_DataFrame sample_batch) w' = (Ok df', w').
Proof.
  eexists _, _. split; [vm_compute; reflexivity|].
  eapply (transform_stations_again
           sample_reverse sample_to_datetime sample_tz_aware sample_now
           (pd_DataFrame sample_batch) _ (mkWorld None [])).
  vm_compute. reflexivity.
Defined.

Lemma extract_offsets_and_sleeps_sample :
  exists res net',
    extract_charging_stations sample_requests_get 3 None (mkNet [] 0)
    = Some (res, net')
    /\ exists n,
         (1 <= n)%nat
         /\ requests net'
            = (requests (mkNet [] 0)
               ++ map (fun k => 500 * Z.of_nat k) (seq 0 n))%list
         /\ slept net' = (slept (mkNet [] 0) + (n - 1))%nat.
Proof.
  eexists _, _. split; [vm_compute; reflexivity|].
  eapply (extract_offsets_and_sleeps sample_requests_get 3 None
                                    (mkNet [] 0) _ _).
  vm_compute. reflexivity.
Defined.

Lemma extract_max_pages_sample :
  exists res net',
    extract_charging_stations sample_requests_get 3 (Some 1%nat)
                              (mkNet [] 0)
    = Some (res, net')
    /\ (length (requests net') <= length (requests (mkNet [] 0)) + 1)%nat.
Proof.
  eexists _, _. split; [vm_compute; reflexivity|].
  eapply (extract_max_pages sample_requests_get 3 1 (mkNet [] 0) _ _).
  - apply le_n.
  - vm_compute. reflexivity.
Defined.


Lemma endless_listing_always_answers :
  listing_always_answers endless_requests_get.
Proof.
  intros k skip. eexists _, _, _. split; [reflexivity|].
  vm_compute. reflexivity.
Defined.

Lemma extract_never_returns_sample :
  extract_charging_stations endless_requests_get 100 None (mkNet [] 0)
  = None.
Proof.
  apply (extract_never_returns endless_requests_get 100 None (mkNet [] 0)).
  - exact endless_listing_always_answers.
  - left. reflexivity.
Defined.

Lemma extract_stops_at_max_pages_sample :
  exists df net',
    extract_charging_stations endless_requests_get 5 (Some 2%nat)
                              (mkNet [] 0)
    = Some (Ok df, net')
    /\ length (requests net') = (length (requests (mkNet [] 0)) + 2)%nat
    /\ (2 <= length (rows df))%nat.
Proof.
  apply (extract_stops_at_max_pages endless_requests_get 5 2 (mkNet [] 0)).
  - exact endless_listing_always_answers.
  - apply le_S, le_n.
  - repeat constructor.
Defined.


Lemma load_to_db_then_read_sample :
  let others :=
    read_from_db (delete_where_id_in (map id (rows test_data))
                                     sample_connection) in
  Forall (fun r => sql_row (columns test_data) r
                   ∈ read_from_db
                       (snd (load_to_db 999 true test_data
                                        sample_connection)))
         (rows test_data)
  /\ (forall row,
        row ∈ read_from_db (snd (load_to_db 999 true test_data
                                            sample_connection)) ->
        (exists r, r ∈ rows test_data
                   /\ row = sql_row (columns test_data) r)
        \/ row ∈ others)
  /\ (forall row,
        row ∈ others ->
        row ∈ read_from_db (snd (load_to_db 999 true test_data
                                            sample_connection)))
  /\ length (read_from_db (snd (load_to_db 999 true test_data
                                           sample_connection)))
     = (length (rows test_data) + length others)%nat.
Proof.
  apply (load_to_db_then_read 999 true test_data sample_connection).
  vm_compute. reflexivity.
Defined.

Lemma etl_pipeline_main_never_loads_sample :
  exists res net' w' db',
    etl_pipeline_main sample_requests_get sample_reverse sample_to_datetime
                      sample_tz_aware sample_now 999 true 5
                      (mkNet [] 0) (mkWorld None []) (Some sample_table)
    = Some (res, (net', w', db'))
    /\ is_ok res = false
    /\ default ∅ db' = default ∅ (Some sample_table).
Proof.
  eexists _, _, _, _. split; [vm_compute; reflexivity|].
  eapply (etl_pipeline_main_never_loads
           sample_requests_get sample_reverse sample_to_datetime
           sample_tz_aware sample_now 999 true 5
           (mkNet [] 0) _ (mkWorld None []) _ (Some sample_table) _ _).
  vm_compute. reflexivity.
Defined.

Lemma get_stats_counts_sample :
  total (get_stats sample_order_by_count_desc test_connection) = 3%nat
  /\ list_sum (map snd (by_operator
                          (get_stats sample_order_by_count_desc
                                     test_connection))) = 3%nat
  /\ offline (get_stats sample_order_by_count_desc test_connection)
     = 1%nat
  /\ online (get_stats sample_order_by_count_desc test_connection)
     = 2%nat.
Proof.
  destruct (get_stats_counts sample_order_by_count_desc test_connection)
    as (Htotal & Hsum & _ & _).
  split; [reflexivity|]. split; [rewrite Hsum; reflexivity|].
  split; reflexivity.
Defined.

Lemma get_stats_by_city_sample :
  (length (by_city (get_stats sample_order_by_count_desc test_connection))
   <= 10)%nat
  /\ Forall (fun kn =>
               fst kn <> SqlNull
               /\ fst kn <> SqlText "Unknown"
               /\ (exists row, row ∈ read_from_db test_connection
                               /\ field "city" row = fst kn)
               /\ (1 <= snd kn
                   <= total (get_stats sample_order_by_count_desc
                                       test_connection))%nat)
            (by_city (get_stats sample_order_by_count_desc
                                test_connection)).
Proof.
  apply (get_stats_by_city sample_order_by_count_desc test_connection).
  intros groups. apply merge_sort_Permutation.
Defined.

Lemma load_to_db_twice_sample :
  Forall (fun r =>
            committed
              (snd (load_to_db 999 true test_data
                      (snd (load_to_db 999 true test_data
                                       sample_connection))))
              !! id r
            = Some (sql_row (columns test_data) r)) (rows test_data)
  /\ Forall (fun r =>
               id r ∉ map id (rows test_data) ->
               committed
                 (snd (load_to_db 999 true test_data
                         (snd (load_to_db 999 true test_data
                                          sample_connection))))
                 !! id r
               = Some (sql_row (columns test_data) r)) (rows test_data).
Proof.
  apply (load_to_db_twice 999 true test_data test_data sample_connection
           (snd (load_to_db 999 true test_data sample_connection))).
  - vm_compute. reflexivity.
  - vm_compute. reflexivity.
Defined.

Lemma load_to_db_then_list_offline_sample :
  exists listed,
    list_offline_stations (Some (committed test_connection)) = Ok listed
    /\ Forall (fun r => sql_row (columns test_data) r ∈ listed
                        <-> is_offline r = true) (rows test_data)
    /\ Forall (fun row => sql_eq_integer (field "is_offline" row) 1 = true)
              listed.
Proof.
  apply (load_to_db_then_list_offline 999 true test_data (init_db None)).
  - vm_compute. reflexivity.
  - reflexivity.
Defined.
